(** * Personal Finance Assistant API: a shallow embedding of [main.py]
      and [schemas.py], and the properties of its endpoints.

    Modelling conventions.
    - Python [str] is Rocq's [string], holding the UTF-8 bytes of the
      text.  [in], [split] and [join] act on the bytes, [str.lower] on the
      ASCII letters; [int], [strptime], the schema patterns and the slice
      [[:80]] read the code points ([Unicode]).
    - Python numbers ([float] amounts and limits, the [int] literal [0])
      are exact rationals [Qc] in the embedding of the endpoints: every
      amount is the value it denotes, and [+], [-], [>] are the exact
      operations.  What depends on the rounding of binary floating point
      is settled on [Binary64], the accumulations of [summary] over IEEE
      binary64 numbers.
    - A Python [dict] is an insertion-ordered association list ([PyDict]).
    - An exception is a value of [exn]; code that may raise returns
      [result].  [raise HTTPException(status_code=500, detail=str(e))] is
      the value [HTTPException 500 e]: the detail is the text of [e].
    - [str(x)] of a number depends on how Python holds it ([50] or
      [50.0]); it is the parameter [number_str] of the definitions that
      print a value with [str].
    - [database.py] is not part of the sources: the store and its two
      operations follow the contract the specification gives for them. *)

From Stdlib Require Import List String Ascii ZArith QArith Qcanon Lia Lqa Bool.
From Stdlib Require Import DecimalString.
From Stdlib Require PrimFloat FloatOps SpecFloat.
Import ListNotations.

Local Open Scope string_scope.
Local Open Scope Z_scope.

(** ** Python strings *)

Module PyStr.

(** [c.lower()] on one ASCII character. *)
Definition lower_ascii (c : ascii) : ascii :=
  let n := nat_of_ascii c in
  if andb (Nat.leb 65 n) (Nat.leb n 90) then ascii_of_nat (n + 32) else c.

(** [s.lower()] *)
Fixpoint lower (s : string) : string :=
  match s with
  | EmptyString => EmptyString
  | String c s' => String (lower_ascii c) (lower s')
  end.

(** [sub in s] *)
Fixpoint contains (sub s : string) : bool :=
  match s with
  | EmptyString => prefix sub EmptyString
  | String _ s' => prefix sub s || contains sub s'
  end.

(** [s.split(sep)] for a one-character separator; the accumulator holds
    the current field. *)
Fixpoint split_from (sep : ascii) (s : string) (field : string) : list string :=
  match s with
  | EmptyString => [field]
  | String c s' =>
      if Ascii.eqb c sep then field :: split_from sep s' EmptyString
      else split_from sep s' (field ++ String c EmptyString)
  end.

Definition split (sep : ascii) (s : string) : list string :=
  split_from sep s EmptyString.

(** [sep.join(parts)] *)
Fixpoint join (sep : string) (parts : list string) : string :=
  match parts with
  | [] => EmptyString
  | [p] => p
  | p :: rest => p ++ sep ++ join sep rest
  end.

(** A Python string is truthy when it is not empty. *)
Definition truthy (s : string) : bool :=
  match s with EmptyString => false | _ => true end.

Definition is_digit (c : ascii) : bool :=
  let n := nat_of_ascii c in andb (Nat.leb 48 n) (Nat.leb n 57).

Definition digit_val (c : ascii) : Z := Z.of_nat (nat_of_ascii c) - 48.

(** The value of a run of decimal digits, most significant first. *)
Fixpoint digits_val (acc : Z) (s : string) : Z :=
  match s with
  | EmptyString => acc
  | String c s' => digits_val (10 * acc + digit_val c) s'
  end.

Fixpoint all_digits (s : string) : bool :=
  match s with
  | EmptyString => true
  | String c s' => is_digit c && all_digits s'
  end.

(** The line feed, [chr(10)]. *)
Definition nl : string := String (ascii_of_nat 10) EmptyString.

End PyStr.

(** ** Python numbers and the [.2f] format *)

Module PyNum.

Abbreviation number := Qc (only parsing).

Definition of_Z (z : Z) : number := Q2Qc (inject_Z z).

(** Decimal digits of a non-negative integer. *)
Definition dec (z : Z) : string := NilZero.string_of_uint (N.to_uint (Z.to_N z)).

(** Round a non-negative rational [n/d] to the nearest integer, ties to
    even: the rounding of [format(x, '.2f')]. *)
Definition round_half_even (n d : Z) : Z :=
  let q := n / d in
  let r := n mod d in
  match 2 * r ?= d with
  | Lt => q
  | Gt => q + 1
  | Eq => if Z.even q then q else q + 1
  end.

(** [f"{x:.2f}"] *)
Definition format_2f (x : number) : string :=
  let n := Qnum (this x) in
  let d := Zpos (Qden (this x)) in
  let h := round_half_even (Z.abs n * 100) d in
  let frac := h mod 100 in
  (if n <? 0 then "-" else "") ++ dec (h / 100) ++ "."
    ++ (if frac <? 10 then "0" else "") ++ dec frac.

(** [a > b] *)
Definition gtb (a b : number) : bool :=
  match (this a ?= this b)%Q with Gt => true | _ => false end.

End PyNum.

(** ** Dates

    [datetime.datetime], naive (no time zone). *)

Record datetime := mkDatetime {
  year : Z; month : Z; day : Z;
  hour : Z; minute : Z; second : Z; microsecond : Z
}.

Definition is_leap (y : Z) : bool :=
  (y mod 4 =? 0) && (negb (y mod 100 =? 0) || (y mod 400 =? 0)).

Definition days_in_month (y m : Z) : Z :=
  if m =? 2 then (if is_leap y then 29 else 28)
  else if (m =? 4) || (m =? 6) || (m =? 9) || (m =? 11) then 30
  else 31.

(** Lexicographic comparison of two datetimes. *)
Definition lex (c : comparison) (k : comparison) : comparison :=
  match c with Eq => k | _ => c end.

Definition datetime_compare (a b : datetime) : comparison :=
  lex (year a ?= year b)
  (lex (month a ?= month b)
  (lex (day a ?= day b)
  (lex (hour a ?= hour b)
  (lex (minute a ?= minute b)
  (lex (second a ?= second b)
       (microsecond a ?= microsecond b)))))).

Definition datetime_eqb (a b : datetime) : bool :=
  (year a =? year b) && (month a =? month b) && (day a =? day b)
  && (hour a =? hour b) && (minute a =? minute b) && (second a =? second b)
  && (microsecond a =? microsecond b).

(** [s.zfill(width)] for a text of digits. *)
Fixpoint zeros (n : nat) : string :=
  match n with
  | O => EmptyString
  | S n' => String "0" (zeros n')
  end.

Definition zfill (width : nat) (s : string) : string :=
  zeros (width - String.length s) ++ s.

Definition pad (width : nat) (n : Z) : string := zfill width (PyNum.dec n).

(** [d.date().isoformat()] *)
Definition date_isoformat (d : datetime) : string :=
  pad 4 (year d) ++ "-" ++ pad 2 (month d) ++ "-" ++ pad 2 (day d).

(** [str(d)] *)
Definition datetime_str (d : datetime) : string :=
  date_isoformat d ++ " " ++ pad 2 (hour d) ++ ":" ++ pad 2 (minute d)
    ++ ":" ++ pad 2 (second d)
    ++ (if microsecond d =? 0 then "" else "." ++ pad 6 (microsecond d)).

(** ** Values held by documents *)

(** The store-native identifier, [bson.ObjectId]; [hex] is its rendering
    by [str]. *)
Record ObjectId := mkObjectId { hex : string }.

Inductive value :=
| VNone
| VNum (x : PyNum.number)
| VStr (s : string)
| VDate (d : datetime)
| VOid (o : ObjectId).

Definition number_eqb (a b : PyNum.number) : bool := Qeq_bool (this a) (this b).

Definition value_eqb (a b : value) : bool :=
  match a, b with
  | VNone, VNone => true
  | VNum x, VNum y => number_eqb x y
  | VStr s, VStr t => String.eqb s t
  | VDate d, VDate e => datetime_eqb d e
  | VOid o, VOid p => String.eqb (hex o) (hex p)
  | _, _ => false
  end.

(** Truth value of an object: [None], [0] and [''] are false. *)
Definition value_truthy (v : value) : bool :=
  match v with
  | VNone => false
  | VNum x => negb (number_eqb x (PyNum.of_Z 0))
  | VStr s => PyStr.truthy s
  | VDate _ | VOid _ => true
  end.

(** ** Exceptions and results *)

Inductive exn :=
| InvalidLiteral (s : string)      (* ValueError: a text int() or strptime() cannot parse *)
| TooManyDigits (n : nat)          (* ValueError: int() of a literal of n digits, over the limit *)
| UnpackMismatch (got : nat)       (* ValueError: wrong number of values to unpack *)
| DateOutOfRange (y m d : Z)       (* ValueError or OverflowError: datetime() argument out of range *)
| BadOperand (v : value)           (* TypeError / ValueError: a non-number where a number is needed *)
| KeyError (k : string)            (* KeyError: d[k] on a missing key *)
| StoreError                       (* an error of the document store *)
| HTTPException (status_code : Z) (detail : exn).

Inductive result (A : Type) :=
| Ok (a : A)
| Raise (e : exn).
Arguments Ok {A} a.
Arguments Raise {A} e.

Definition bind {A B} (r : result A) (k : A -> result B) : result B :=
  match r with
  | Ok a => k a
  | Raise e => Raise e
  end.

Declare Scope py_scope.
Notation "x <- r ;; k" := (bind r (fun x => k))
  (at level 61, r at next level, right associativity) : py_scope.
Local Open Scope py_scope.

(** [try: body except Exception as e: raise HTTPException(status_code=500,
    detail=str(e))], the wrapper of every endpoint. *)
Definition http_guard {A} (body : result A) : result A :=
  match body with
  | Ok a => Ok a
  | Raise e => Raise (HTTPException 500 e)
  end.

(** [datetime(y, m, d)] *)
Definition datetime_ymd (y m d : Z) : result datetime :=
  if negb ((1 <=? y) && (y <=? 9999)) then Raise (DateOutOfRange y m d)
  else if negb ((1 <=? m) && (m <=? 12)) then Raise (DateOutOfRange y m d)
  else if negb ((1 <=? d) && (d <=? days_in_month y m)) then Raise (DateOutOfRange y m d)
  else Ok (mkDatetime y m d 0 0 0 0).

(** A number where Python needs one: the operand of [+] with a number,
    of [>] and of the [.2f] format. *)
Definition as_number (v : value) : result PyNum.number :=
  match v with
  | VNum x => Ok x
  | _ => Raise (BadOperand v)
  end.

(** ** Python dictionaries: association lists in insertion order *)

Class Key (K : Type) := keqb : K -> K -> bool.

#[global] Instance string_key : Key string := String.eqb.
#[global] Instance value_key : Key value := value_eqb.

(** A key type whose test decides equality. *)
Class KeyOk (K : Type) `{Key K} :=
  keqb_eq : forall a b : K, keqb a b = true <-> a = b.

Module PyDict.
Section Dict.
Context {K V : Type} `{Key K}.

Definition t := list (K * V).

(** [d.get(k)] *)
Fixpoint get (k : K) (d : list (K * V)) : option V :=
  match d with
  | [] => None
  | (k', v) :: d' => if keqb k' k then Some v else get k d'
  end.

(** [d.get(k, dflt)] *)
Definition get_default (k : K) (dflt : V) (d : list (K * V)) : V :=
  match get k d with Some v => v | None => dflt end.

(** [k in d] *)
Definition mem (k : K) (d : list (K * V)) : bool :=
  match get k d with Some _ => true | None => false end.

(** [d[k] = v]: an existing key keeps its place, a new one goes last. *)
Fixpoint set (k : K) (v : V) (d : list (K * V)) : list (K * V) :=
  match d with
  | [] => [(k, v)]
  | (k', v') :: d' => if keqb k' k then (k', v) :: d' else (k', v') :: set k v d'
  end.

(** The dictionary left by [d.pop(k)]: [k] is no longer a key (a
    dictionary holds a key once). *)
Fixpoint remove (k : K) (d : list (K * V)) : list (K * V) :=
  match d with
  | [] => []
  | (k', v') :: d' => if keqb k' k then remove k d' else (k', v') :: remove k d'
  end.

Definition keys (d : list (K * V)) : list K := map fst d.

End Dict.
End PyDict.

(** A document is a dictionary from field names to values. *)
Definition doc := list (string * value).

(** [d.get(k)] on a document: [None] when the field is missing. *)
Definition doc_get (k : string) (d : doc) : value := PyDict.get_default k VNone d.

(** [d[k]] *)
Definition getitem (k : string) (d : doc) : result value :=
  match PyDict.get k d with
  | Some v => Ok v
  | None => Raise (KeyError k)
  end.

(** ** Unicode text

    A Python [str] is a sequence of code points, of which the model holds
    the UTF-8 bytes.  The decimal digits of Unicode (category Nd) are
    those of every script; they come in runs of ten, from the digit zero
    of the script to its digit nine.  The tables are those of Unicode
    14.0, the version of CPython 3.11. *)

Module Unicode.

(** The code points of a UTF-8 text; [pending] continuation bytes are
    still due for the code point whose leading bits are [acc]. *)
Fixpoint decode (s : string) (pending : nat) (acc : N) : option (list N) :=
  match s with
  | EmptyString => match pending with O => Some [] | S _ => None end
  | String c s' =>
      let b := N_of_ascii c in
      match pending with
      | O =>
          if (b <? 128)%N then option_map (cons b) (decode s' 0 0)
          else if (192 <=? b)%N && (b <? 224)%N then decode s' 1 (b - 192)
          else if (224 <=? b)%N && (b <? 240)%N then decode s' 2 (b - 224)
          else if (240 <=? b)%N && (b <? 248)%N then decode s' 3 (b - 240)
          else None
      | S p =>
          if (128 <=? b)%N && (b <? 192)%N then
            let acc' := (acc * 64 + (b - 128))%N in
            match p with
            | O => option_map (cons acc') (decode s' 0 0)
            | S _ => decode s' p acc'
            end
          else None
      end
  end.

Definition code_points (s : string) : option (list N) := decode s 0 0.

(** The digit zero of every script that has decimal digits. *)
Definition nd_zeros : list N :=
  [48; 1632; 1776; 1984; 2406; 2534; 2662; 2790; 2918; 3046; 3174; 3302;
   3430; 3558; 3664; 3792; 3872; 4160; 4240; 6112; 6160; 6470; 6608; 6784;
   6800; 6992; 7088; 7232; 7248; 42528; 43216; 43264; 43472; 43504; 43600;
   44016; 65296; 66720; 68912; 69734; 69872; 69942; 70096; 70384; 70736;
   70864; 71248; 71360; 71472; 71904; 72016; 72784; 73040; 73120; 92768;
   92864; 93008; 120782; 120792; 120802; 120812; 120822; 123200; 123632;
   125264; 130032]%N.

(** The value of a decimal digit; [None] for any other character. *)
Definition decimal (cp : N) : option Z :=
  option_map (fun zero => Z.of_N (cp - zero))
             (find (fun zero => (zero <=? cp)%N && (cp <? zero + 10)%N) nd_zeros).

(** [\d], and [str.isdecimal] on one character. *)
Definition is_decimal (cp : N) : bool :=
  match decimal cp with Some _ => true | None => false end.

(** [str.isspace] on one character beyond ASCII. *)
Definition is_space (cp : N) : bool :=
  existsb (N.eqb cp) [133; 160; 5760; 8232; 8233; 8239; 8287; 12288]%N
  || ((8192 <=? cp)%N && (cp <=? 8202)%N).

(** The number written by a run of decimal digits, most significant
    first; [None] when a character is not a decimal digit. *)
Fixpoint decimal_val (acc : Z) (cps : list N) : option Z :=
  match cps with
  | [] => Some acc
  | cp :: rest =>
      match decimal cp with
      | Some d => decimal_val (10 * acc + d) rest
      | None => None
      end
  end.

(** The first [n] code points of a UTF-8 text, [s[:n]]: a continuation
    byte belongs to the code point that precedes it. *)
Fixpoint take (n : nat) (s : string) : string :=
  match s with
  | EmptyString => EmptyString
  | String c s' =>
      let b := N_of_ascii c in
      if (128 <=? b)%N && (b <? 192)%N then String c (take n s')
      else match n with
           | O => EmptyString
           | S n' => String c (take n' s')
           end
  end.

(** [len(s)]: the number of code points of a UTF-8 text. *)
Fixpoint length (s : string) : nat :=
  match s with
  | EmptyString => O
  | String c s' =>
      let b := N_of_ascii c in
      if (128 <=? b)%N && (b <? 192)%N then length s' else S (length s')
  end.

End Unicode.

(** ** [int(s)] and [datetime.strptime(s, "%Y-%m-%d")] *)

(** The white space that [int] skips around an ASCII literal. *)
Definition is_space (c : ascii) : bool :=
  let n := nat_of_ascii c in
  (Nat.eqb n 32) || (Nat.leb 9 n && Nat.leb n 13).

Fixpoint lstrip (s : string) : string :=
  match s with
  | String c s' => if is_space c then lstrip s' else s
  | EmptyString => EmptyString
  end.

Definition string_rev (s : string) : string :=
  string_of_list_ascii (rev (list_ascii_of_string s)).

Definition strip (s : string) : string :=
  string_rev (lstrip (string_rev (lstrip s))).

(** What [int] reads for a code point: an ASCII character is itself, a
    space of Unicode is " ", a decimal digit of another script is the
    ASCII digit of its value, anything else is "?", which no literal
    holds. *)
Definition ascii_of_code_point (cp : N) : ascii :=
  if (cp <? 127)%N then ascii_of_N cp
  else if Unicode.is_space cp then " "%char
  else match Unicode.decimal cp with
       | Some d => ascii_of_N (48 + Z.to_N d)
       | None => "?"%char
       end.

(** Digits with single underscores between them. *)
Fixpoint int_body (after_digit : bool) (acc : Z) (s : string) : option Z :=
  match s with
  | EmptyString => if after_digit then Some acc else None
  | String c s' =>
      if PyStr.is_digit c then int_body true (10 * acc + PyStr.digit_val c) s'
      else if Ascii.eqb c "_" then
        (if after_digit then int_body false acc s' else None)
      else None
  end.

(** An optional sign and the digits. *)
Definition int_literal (t : string) : option Z :=
  match t with
  | String "+" r => int_body false 0 r
  | String "-" r => option_map Z.opp (int_body false 0 r)
  | _ => int_body false 0 t
  end.

Fixpoint count_digits (s : string) : nat :=
  match s with
  | EmptyString => O
  | String c s' => if PyStr.is_digit c then S (count_digits s') else count_digits s'
  end.

(** [sys.get_int_max_str_digits()], at its default. *)
Definition max_str_digits : nat := 4300.

(** [int(s)] *)
Definition py_int (s : string) : result Z :=
  match Unicode.code_points s with
  | Some cps =>
      let t := strip (string_of_list_ascii (map ascii_of_code_point cps)) in
      match int_literal t with
      | Some z =>
          if Nat.ltb max_str_digits (count_digits t)
          then Raise (TooManyDigits (count_digits t))
          else Ok z
      | None => Raise (InvalidLiteral s)
      end
  | None => Raise (InvalidLiteral s)
  end.

(** A code point that is the ASCII character [c], or one from [lo] to
    [hi]. *)
Definition is_char (c : ascii) (cp : N) : bool := (cp =? N_of_ascii c)%N.

Definition in_range (lo hi : ascii) (cp : N) : bool :=
  (N_of_ascii lo <=? cp)%N && (cp <=? N_of_ascii hi)%N.

(** The year field of [%Y]: [\d\d\d\d]. *)
Definition year_token (t : list N) : bool :=
  Nat.eqb (List.length t) 4 && forallb Unicode.is_decimal t.

(** The month field of [%m]: [1[0-2]|0[1-9]|[1-9]]. *)
Definition month_token (t : list N) : bool :=
  match t with
  | [a; b] =>
      (is_char "1" a && in_range "0" "2" b) || (is_char "0" a && in_range "1" "9" b)
  | [a] => in_range "1" "9" a
  | _ => false
  end.

(** The day field of [%d]: [3[0-1]|[1-2]\d|0[1-9]|[1-9]| [1-9]]. *)
Definition day_token (t : list N) : bool :=
  match t with
  | [a; b] =>
      (is_char "3" a && in_range "0" "1" b)
      || (in_range "1" "2" a && Unicode.is_decimal b)
      || (is_char "0" a && in_range "1" "9" b)
      || (is_char " " a && in_range "1" "9" b)
  | [a] => in_range "1" "9" a
  | _ => false
  end.

(** [datetime.strptime(s, "%Y-%m-%d")]: the three fields are matched,
    converted by [int] and given to [datetime]. *)
Definition strptime_ymd (s : string) : result datetime :=
  match PyStr.split "-" s with
  | [y; m; d] =>
      match Unicode.code_points y, Unicode.code_points m, Unicode.code_points d with
      | Some cy, Some cm, Some cd =>
          if year_token cy && month_token cm && day_token cd then
            yv <- py_int y ;;
            mv <- py_int m ;;
            dv <- py_int d ;;
            datetime_ymd yv mv dv
          else Raise (InvalidLiteral s)
      | _, _, _ => Raise (InvalidLiteral s)
      end
  | _ => Raise (InvalidLiteral s)
  end.

(** ** Schemas ([schemas.py]) *)

(** [^\d{n}$]: exactly [n] decimal digits, of any script. *)
Definition digits (n : nat) (s : string) : bool :=
  match Unicode.code_points s with
  | Some cps => Nat.eqb (List.length cps) n && forallb Unicode.is_decimal cps
  | None => false
  end.

(** [^\d{4}-\d{2}-\d{2}$] *)
Definition date_pattern (s : string) : bool :=
  match PyStr.split "-" s with
  | [y; m; d] => digits 4 y && digits 2 m && digits 2 d
  | _ => false
  end.

(** [^\d{4}-\d{2}$] *)
Definition month_pattern (s : string) : bool :=
  match PyStr.split "-" s with
  | [y; m] => digits 4 y && digits 2 m
  | _ => false
  end.

Definition none_or_str (o : option string) : value :=
  match o with Some s => VStr s | None => VNone end.

Module Transaction.
Record t := mk {
  amount : PyNum.number;
  type : string;
  category : string;
  date : string;
  notes : option string
}.

(** The field constraints: [gt=0] and the two patterns. *)
Definition valid (x : t) : bool :=
  PyNum.gtb (amount x) (PyNum.of_Z 0)
  && (String.eqb (type x) "expense" || String.eqb (type x) "income")
  && date_pattern (date x).

Definition model_dump (x : t) : doc :=
  [("amount", VNum (amount x)); ("type", VStr (type x));
   ("category", VStr (category x)); ("date", VStr (date x));
   ("notes", none_or_str (notes x))].
End Transaction.

Module Budget.
Record t := mk {
  month : string;
  category : string;
  limit : PyNum.number
}.

(** The field constraints: the month pattern and [ge=0]. *)
Definition valid (x : t) : bool :=
  month_pattern (month x) && negb (PyNum.gtb (PyNum.of_Z 0) (limit x)).

Definition model_dump (x : t) : doc :=
  [("month", VStr (month x)); ("category", VStr (category x));
   ("limit", VNum (limit x))].
End Budget.

Module ChatMessage.
Record t := mk {
  role : string;
  content : string;
  session_id : option string
}.

Definition model_dump (x : t) : doc :=
  [("role", VStr (role x)); ("content", VStr (content x));
   ("session_id", none_or_str (session_id x))].
End ChatMessage.

(** ** The document store ([database.py]) *)

(** A query condition on one field: an exact value, or the range
    [{"$gte": a, "$lt": b}]. *)
Inductive condition :=
| Equals (v : value)
| Between (gte lt : value).

Definition query := list (string * condition).

(** Order between two values of the same kind; values of different kinds
    are not comparable and satisfy no range. *)
Definition value_compare (a b : value) : option comparison :=
  match a, b with
  | VNum x, VNum y => Some (this x ?= this y)%Q
  | VStr s, VStr t => Some (String.compare s t)
  | VDate d, VDate e => Some (datetime_compare d e)
  | _, _ => None
  end.

Definition holds (c : condition) (v : value) : bool :=
  match c with
  | Equals w => value_eqb v w
  | Between lo hi =>
      match value_compare lo v, value_compare v hi with
      | Some (Lt | Eq), Some Lt => true
      | _, _ => false
      end
  end.

Definition matches (q : query) (d : doc) : bool :=
  forallb (fun '(field, c) =>
             match PyDict.get field d with
             | Some v => holds c v
             | None => false
             end) q.

(** The state of the store: the documents of each collection in the
    order the store returns them, the counter behind the identifiers it
    generates, and the outcome of the coming inserts ([true]: the store
    fails that insert). *)
Record store := mkStore {
  docs_of : string -> list doc;
  next_id : N;
  faults : list bool
}.

Definition fresh_id (n : N) : ObjectId :=
  mkObjectId (zfill 24 (PyNum.dec (Z.of_N n))).

(** Modelled from the spec: [get_documents(collection, filter, limit)] of
    the missing [database.py], "fetch documents from a named collection
    matching a filter, with an optional result cap", where the filter is
    "an exact-match/range predicate keyed by field name" and the cap is
    "unbounded if absent". *)
Definition get_documents (st : store) (collection : string) (q : query)
    (limit : option Z) : list doc :=
  let found := filter (matches q) (docs_of st collection) in
  match limit with
  | Some n => firstn (Z.to_nat n) found
  | None => found
  end.

(** Modelled from the spec: [create_document(collection, document)] of
    the missing [database.py], "insert one document into a named
    collection", returning the identifier; it "fails (propagates the
    underlying store error) if the store is unreachable", and "every
    persisted document acquires a store-generated unique identifier". *)
Definition create_document (st : store) (collection : string) (d : doc)
    : result string * store :=
  match faults st with
  | true :: later => (Raise StoreError, mkStore (docs_of st) (next_id st) later)
  | _ =>
      let oid := fresh_id (next_id st) in
      let stored := ("_id", VOid oid) :: d in
      (Ok (hex oid),
       mkStore (fun c => if String.eqb c collection
                         then (docs_of st c ++ [stored])%list else docs_of st c)
               (N.succ (next_id st)) (tl (faults st)))
  end.

(** ** The endpoints ([main.py]) *)

Record summary_t := mkSummary {
  income : PyNum.number;
  expense : PyNum.number;
  net : PyNum.number;
  categories : list (value * PyNum.number);
  budgets : list (value * value)
}.

Module ChatRequest.
Record t := mk {
  message : string;
  month : option string
}.
End ChatRequest.

Record chat_response := mkChatResponse {
  reply : string;
  summary_of : summary_t
}.

(** [if month:] on an [Optional[str]] *)
Definition given (month : option string) : option string :=
  match month with
  | Some m => if PyStr.truthy m then Some m else None
  | None => None
  end.

(** [year, m = map(int, parts)]: the values are converted one by one as
    the unpacking asks for them. *)
Definition unpack_year_month (parts : list string) : result (Z * Z) :=
  match parts with
  | [] => Raise (UnpackMismatch 0)
  | a :: rest =>
      year <- py_int a ;;
      match rest with
      | [] => Raise (UnpackMismatch 1)
      | b :: rest' =>
          m <- py_int b ;;
          match rest' with
          | [] => Ok (year, m)
          | c :: _ => _ <- py_int c ;; Raise (UnpackMismatch 3)
          end
      end
  end.

(** Lines 97-106 of [summary]: the filter on [date]. *)
Definition date_filter (month : option string) : result query :=
  match given month with
  | Some mth =>
      ym <- unpack_year_month (PyStr.split "-" mth) ;;
      let '(year, m) := ym in
      start <- datetime_ymd year m 1 ;;
      end_ <- (if m =? 12 then datetime_ymd (year + 1) 1 1
               else datetime_ymd year (m + 1) 1) ;;
      Ok [("date", Between (VDate start) (VDate end_))]
  | None => Ok []
  end.

(** [{"month": month} if month else {}] *)
Definition month_filter (month : option string) : query :=
  match given month with
  | Some mth => [("month", Equals (VStr mth))]
  | None => []
  end.

(** [sum(d.get("amount", 0) for d in docs if d.get("type") == ty)],
    [acc] being the running total. *)
Fixpoint sum_amounts (ty : string) (docs : list doc) (acc : PyNum.number)
    : result PyNum.number :=
  match docs with
  | [] => Ok acc
  | d :: rest =>
      if value_eqb (doc_get "type" d) (VStr ty) then
        x <- as_number (PyDict.get_default "amount" (VNum (PyNum.of_Z 0)) d) ;;
        sum_amounts ty rest (acc + x)%Qc
      else sum_amounts ty rest acc
  end.

(** The loop of lines 111-114 over [docs], from the dictionary [by_cat]. *)
Fixpoint by_category (docs : list doc) (by_cat : list (value * PyNum.number))
    : result (list (value * PyNum.number)) :=
  match docs with
  | [] => Ok by_cat
  | d :: rest =>
      if value_eqb (doc_get "type" d) (VStr "expense") then
        let cat := PyDict.get_default "category" (VStr "Other") d in
        x <- as_number (PyDict.get_default "amount" (VNum (PyNum.of_Z 0)) d) ;;
        by_category rest
          (PyDict.set cat (PyDict.get_default cat (PyNum.of_Z 0) by_cat + x)%Qc by_cat)
      else by_category rest by_cat
  end.

(** The loop of lines 118-119: [budgets[b["category"]] = b["limit"]],
    the right-hand side evaluated first. *)
Fixpoint budget_limits (budget_docs : list doc) (budgets : list (value * value))
    : result (list (value * value)) :=
  match budget_docs with
  | [] => Ok budgets
  | b :: rest =>
      lim <- getitem "limit" b ;;
      cat <- getitem "category" b ;;
      budget_limits rest (PyDict.set cat lim budgets)
  end.

(** Lines 108-126 of [summary], on the fetched documents. *)
Definition aggregate (docs budget_docs : list doc) : result summary_t :=
  income <- sum_amounts "income" docs (PyNum.of_Z 0) ;;
  expense <- sum_amounts "expense" docs (PyNum.of_Z 0) ;;
  by_cat <- by_category docs [] ;;
  budgets <- budget_limits budget_docs [] ;;
  Ok (mkSummary income expense (income - expense)%Qc by_cat budgets).

(** [GET /api/summary] *)
Definition summary (month : option string) (st : store) : result summary_t :=
  http_guard (
    flt <- date_filter month ;;
    let docs := get_documents st "transaction" flt None in
    let budget_docs := get_documents st "budget" (month_filter month) None in
    aggregate docs budget_docs).

(** Lines 65-70 of [add_transaction]: the dictionary to store, its
    [date] parsed when [strptime] accepts it. *)
Definition storage_dict (txn : Transaction.t) : doc :=
  let txn_dict := Transaction.model_dump txn in
  match strptime_ymd (Transaction.date txn) with
  | Ok dt => PyDict.set "date" (VDate dt) txn_dict
  | Raise _ => txn_dict
  end.

(** [POST /api/transactions] *)
Definition add_transaction (txn : Transaction.t) (st : store)
    : result (string * string) * store :=
  let '(inserted_id, st') := create_document st "transaction" (storage_dict txn) in
  (http_guard (id <- inserted_id ;; Ok (id, "ok")), st').

(** [POST /api/budgets]; the model [b] reaches the store as the
    dictionary of its fields. *)
Definition set_budget (b : Budget.t) (st : store)
    : result (string * string) * store :=
  let '(inserted_id, st') := create_document st "budget" (Budget.model_dump b) in
  (http_guard (id <- inserted_id ;; Ok (id, "ok")), st').

Section Rendering.

(** [str(x)] of a number: the text Python prints for the [int] or
    [float] that [x] stands for. *)
Variable number_str : PyNum.number -> string.

(** [str(v)] *)
Definition py_str (v : value) : string :=
  match v with
  | VNone => "None"
  | VNum x => number_str x
  | VStr s => s
  | VDate d => datetime_str d
  | VOid o => hex o
  end.

(** Lines 82-83: a [datetime] date becomes its ISO text. *)
Definition show_date (d : doc) : doc :=
  match doc_get "date" d with
  | VDate dt => PyDict.set "date" (VStr (date_isoformat dt)) d
  | _ => d
  end.

(** Lines 84-85 and 150-151: [if "_id" in d: d["id"] = str(d.pop("_id"))]. *)
Definition show_id (d : doc) : doc :=
  match PyDict.get "_id" d with
  | Some v => PyDict.set "id" (VStr (py_str v)) (PyDict.remove "_id" d)
  | None => d
  end.

(** [GET /api/transactions]; the result is the [items] list. *)
Definition list_transactions (limit : option Z) (st : store) : result (list doc) :=
  http_guard (
    let docs := get_documents st "transaction" [] limit in
    Ok (map (fun d => show_id (show_date d)) docs)).

(** [GET /api/budgets]; the result is the [items] list. *)
Definition list_budgets (month : option string) (st : store) : result (list doc) :=
  http_guard (
    let docs := get_documents st "budget" (month_filter month) None in
    Ok (map show_id docs)).

(** [month or 'all time'] *)
Definition period (month : option string) : string :=
  match given month with
  | Some m => m
  | None => "all time"
  end.

(** [max(d, key=lambda k: d[k])] continued over [d], the best entry so
    far being [best]: a later key wins only with a strictly greater
    value. *)
Fixpoint max_by (d : list (value * PyNum.number)) (best : value * PyNum.number)
    : value :=
  match d with
  | [] => fst best
  | (k, v) :: rest =>
      if PyNum.gtb v (snd best) then max_by rest (k, v) else max_by rest best
  end.

(** Lines 174-176. *)
Definition top_category (cats : list (value * PyNum.number)) : value :=
  match cats with
  | [] => VNone
  | kv :: rest => max_by rest kv
  end.

(** Lines 177-180. *)
Definition spending_reply (month : option string) (s : summary_t) : result string :=
  let top_cat := top_category (categories s) in
  tail <- (if value_truthy top_cat then
             match PyDict.get top_cat (categories s) with
             | Some amt =>
                 Ok ("Your top spending category is " ++ py_str top_cat
                     ++ " at $" ++ PyNum.format_2f amt ++ ". ")
             | None => Raise (KeyError (py_str top_cat))
             end
           else Ok "") ;;
  Ok ("For " ++ period month ++ ", you spent $" ++ PyNum.format_2f (expense s)
      ++ ". " ++ tail).

(** Line 182. *)
Definition income_reply (month : option string) (s : summary_t) : string :=
  "For " ++ period month ++ ", your income totals $"
  ++ PyNum.format_2f (income s) ++ ". Net is $" ++ PyNum.format_2f (net s) ++ ".".

(** The f-string of line 187. *)
Definition budget_line (cat : value) (spent lim : PyNum.number) : string :=
  "- " ++ py_str cat ++ ": $" ++ PyNum.format_2f spent
  ++ " / $" ++ PyNum.format_2f lim
  ++ " (" ++ (if PyNum.gtb spent lim then "over" else "under") ++ ")".

(** The loop of lines 185-187: one line per budget; a limit that is
    not a number fails in the format. *)
Fixpoint budget_lines (cats : list (value * PyNum.number))
    (bs : list (value * value)) : result (list string) :=
  match bs with
  | [] => Ok []
  | (cat, lim) :: rest =>
      let spent := PyDict.get_default cat (PyNum.of_Z 0) cats in
      l <- as_number lim ;;
      more <- budget_lines cats rest ;;
      Ok (budget_line cat spent l :: more)
  end.

(** Lines 184-188. *)
Definition budget_reply (s : summary_t) : result string :=
  more <- budget_lines (categories s) (budgets s) ;;
  let lines := "Budgets:" :: more in
  Ok (if Nat.ltb 1 (List.length lines) then PyStr.join PyStr.nl lines
      else "No budgets set yet.").

(** Lines 190-193. *)
Definition help_text : string :=
  "I can help with your personal finance. Ask things like 'show expenses this month', "
  ++ "'what's my income', or 'how am I doing against my budget?'.".

(** Lines 195-199: the two inserts, an exception of either ending the
    [try] block and being dropped. *)
Definition log_messages (user_text reply_text : string) (st : store) : store :=
  let '(r1, st1) :=
    create_document st "chatmessage"
      (ChatMessage.model_dump (ChatMessage.mk "user" user_text None)) in
  match r1 with
  | Raise _ => st1
  | Ok _ =>
      snd (create_document st1 "chatmessage"
             (ChatMessage.model_dump (ChatMessage.mk "assistant" reply_text None)))
  end.

(** [POST /api/chat] *)
Definition chat (req : ChatRequest.t) (st : store) : result chat_response * store :=
  let user_msg := PyStr.lower (ChatRequest.message req) in
  let month := ChatRequest.month req in
  let computed :=
    s <- summary month st ;;
    reply <- (if PyStr.contains "spend" user_msg || PyStr.contains "expense" user_msg
              then spending_reply month s
              else if PyStr.contains "income" user_msg then Ok (income_reply month s)
              else if PyStr.contains "budget" user_msg then budget_reply s
              else Ok help_text) ;;
    Ok (reply, s) in
  match computed with
  | Raise e => (Raise (HTTPException 500 e), st)
  | Ok (reply, s) =>
      (Ok (mkChatResponse reply s),
       log_messages (ChatRequest.message req) reply st)
  end.

End Rendering.

(** ** The accumulations of [summary] over binary64

    The amounts that the API stores are Python floats, IEEE binary64
    numbers, and [+] on them rounds to the nearest.  Lines 108-114 of
    [summary] are embedded here a second time, over Rocq's binary64
    numbers, for what depends on the rounding.  [sum] adds from [0], left
    to right, as [+] does (CPython up to 3.11; later versions compensate
    the rounding of [sum], not that of the loop over the categories). *)

Module Binary64.
Import PrimFloat.
#[local] Set Warnings "-inexact-float".

(** The values of a fetched transaction that the loops read. *)
Inductive fvalue :=
| FNone
| FNum (x : float)
| FStr (s : string).

(** [a == b] *)
Definition fvalue_eqb (a b : fvalue) : bool :=
  match a, b with
  | FNone, FNone => true
  | FNum x, FNum y => PrimFloat.eqb x y
  | FStr s, FStr t => String.eqb s t
  | _, _ => false
  end.

#[global] Instance fvalue_key : Key fvalue := fvalue_eqb.

Definition fdoc := list (string * fvalue).

(** A number where [+] needs one; [None] stands for the [TypeError]. *)
Definition as_float (v : fvalue) : option float :=
  match v with
  | FNum x => Some x
  | _ => None
  end.

(** [sum(d.get("amount", 0) for d in docs if d.get("type") == ty)],
    [acc] being the running total. *)
Fixpoint sum_amounts (ty : string) (docs : list fdoc) (acc : float) : option float :=
  match docs with
  | [] => Some acc
  | d :: rest =>
      if fvalue_eqb (PyDict.get_default "type" FNone d) (FStr ty) then
        match as_float (PyDict.get_default "amount" (FNum 0) d) with
        | Some x => sum_amounts ty rest (acc + x)%float
        | None => None
        end
      else sum_amounts ty rest acc
  end.

(** The loop of lines 111-114 over [docs], from the dictionary [by_cat]. *)
Fixpoint by_category (docs : list fdoc) (by_cat : list (fvalue * float))
    : option (list (fvalue * float)) :=
  match docs with
  | [] => Some by_cat
  | d :: rest =>
      if fvalue_eqb (PyDict.get_default "type" FNone d) (FStr "expense") then
        let cat := PyDict.get_default "category" (FStr "Other") d in
        match as_float (PyDict.get_default "amount" (FNum 0) d) with
        | Some x =>
            by_category rest
              (PyDict.set cat (PyDict.get_default cat 0%float by_cat + x)%float by_cat)
        | None => None
        end
      else by_category rest by_cat
  end.

(** [sum(xs)] *)
Definition py_sum (xs : list float) : float := fold_left PrimFloat.add xs 0%float.


(** An expense of a category, as fetched. *)
Definition expense_of (category : string) (amount : float) : fdoc :=
  [("type", FStr "expense"); ("category", FStr category); ("amount", FNum amount)].

(** Three expenses whose amounts round when they are added, and three
    whose amounts do not. *)
Definition rounding_expenses : list fdoc :=
  [expense_of "a" 0.1; expense_of "b" 0.1; expense_of "a" 1.1].


End Binary64.

(** * Notions used to state the properties *)

Section Exactness.
Import PrimFloat.





(** The amounts of the expenses of the category named [c], in the order
    fetched. *)
Definition category_amounts (c : string) (docs : list Binary64.fdoc) : list float :=
  map (fun d =>
         match Binary64.as_float (PyDict.get_default "amount" (Binary64.FNum 0) d) with
         | Some x => x
         | None => 0%float
         end)
      (filter (fun d =>
                 Binary64.fvalue_eqb (PyDict.get_default "type" Binary64.FNone d)
                                     (Binary64.FStr "expense")
                 && Binary64.fvalue_eqb
                      (PyDict.get_default "category" (Binary64.FStr "Other") d)
                      (Binary64.FStr c))
              docs).

End Exactness.

(** [sum(xs)]: the running total from [0], left to right. *)
Definition py_sum (xs : list PyNum.number) : PyNum.number :=
  fold_left Qcplus xs (PyNum.of_Z 0).


Definition category_of (d : doc) : value :=
  PyDict.get_default "category" (VStr "Other") d.

Definition has_type (ty : string) (d : doc) : bool :=
  value_eqb (doc_get "type" d) (VStr ty).



(** The last document of category [c] in a sequence of budgets. *)
Fixpoint last_with (c : value) (budget_docs : list doc) : option doc :=
  match budget_docs with
  | [] => None
  | b :: rest =>
      match last_with c rest with
      | Some b' => Some b'
      | None => if value_eqb (doc_get "category" b) c then Some b else None
      end
  end.

(** The scenario of the spec: from an empty store, one expense is posted
    and one budget is set; then a second budget for the same category. *)
Definition empty_store : store := mkStore (fun _ => []) 0%N [].

Definition scenario_transaction : Transaction.t :=
  Transaction.mk (PyNum.of_Z 50) "expense" "groceries" "2025-01-05" None.

Definition scenario_budget : Budget.t :=
  Budget.mk "2025-01" "groceries" (PyNum.of_Z 40).

Definition scenario_store : store :=
  snd (set_budget scenario_budget
         (snd (add_transaction scenario_transaction empty_store))).

Definition raised_budget : Budget.t :=
  Budget.mk "2025-01" "groceries" (PyNum.of_Z 60).

Definition raised_store : store := snd (set_budget raised_budget scenario_store).

Definition scenario_summary : summary_t :=
  mkSummary (PyNum.of_Z 0) (PyNum.of_Z 50) (PyNum.of_Z (-50))
    [(VStr "groceries", PyNum.of_Z 50)]
    [(VStr "groceries", VNum (PyNum.of_Z 40))].

Definition raised_summary : summary_t :=
  mkSummary (PyNum.of_Z 0) (PyNum.of_Z 50) (PyNum.of_Z (-50))
    [(VStr "groceries", PyNum.of_Z 50)]
    [(VStr "groceries", VNum (PyNum.of_Z 60))].




(** The year and month a [month] text splits into: exactly two parts,
    both accepted by [int]. *)
Definition year_month_parts (mth : string) : option (Z * Z) :=
  match PyStr.split "-" mth with
  | [a; b] =>
      match py_int a, py_int b with
      | Ok y, Ok m => Some (y, m)
      | _, _ => None
      end
  | _ => None
  end.

(** What [year, m = map(int, parts)] can raise: the error of [int] on
    one of the parts, or the error of unpacking other than two values. *)
Definition unpack_error (parts : list string) (e : exn) : Prop :=
  (exists p, In p parts /\ py_int p = Raise e) \/
  (exists n, e = UnpackMismatch n /\ n <> 2%nat /\ List.length parts <> 2%nat).

(** The half-open interval of a month: from the first day of month [m]
    of year [y] at midnight to the first day of the following month at
    midnight, which after December is the first of January of [y + 1]. *)
Definition first_of_month (y m : Z) : datetime := mkDatetime y m 1 0 0 0 0.

Definition first_of_next_month (y m : Z) : datetime :=
  if m =? 12 then mkDatetime (y + 1) 1 1 0 0 0 0 else mkDatetime y (m + 1) 1 0 0 0 0.

Definition datetime_leb (a b : datetime) : bool :=
  match datetime_compare a b with Gt => false | _ => true end.

Definition datetime_ltb (a b : datetime) : bool :=
  match datetime_compare a b with Lt => true | _ => false end.

(** The document has a [date] that is a timestamp in [lo, hi). *)
Definition dated_within (lo hi : datetime) (d : doc) : bool :=
  match PyDict.get "date" d with
  | Some (VDate t) => datetime_leb lo t && datetime_ltb t hi
  | _ => false
  end.

(** The number that a text of decimal digits writes. *)
Definition decimal_value (s : string) : Z :=
  match Unicode.code_points s with
  | Some cps =>
      match Unicode.decimal_val 0 cps with
      | Some v => v
      | None => 0
      end
  | None => 0
  end.

(** The year and the month number written in a text "YYYY-MM". *)
Definition year_month_of (M : string) : Z * Z :=
  match PyStr.split "-" M with
  | [ys; ms] => (decimal_value ys, decimal_value ms)
  | _ => (0, 0)
  end.

(** The document that a successful POST /api/transactions adds to the
    store. *)
Definition persisted_document (txn : Transaction.t) (st : store) : option doc :=
  match add_transaction txn st with
  | (Ok _, st') => Some (last (docs_of st' "transaction") [])
  | (Raise _, _) => None
  end.

(** The [date] of the document is the timestamp at midnight of the day
    written in [date_text]. *)
Definition stored_at_midnight (date_text : string) (d : doc) : Prop :=
  exists ys ms ds,
    PyStr.split "-" date_text = [ys; ms; ds] /\
    PyDict.get "date" d
    = Some (VDate (mkDatetime (decimal_value ys) (decimal_value ms)
                              (decimal_value ds) 0 0 0 0)).

(** The text "YYYY-MM-DD" names a day of the calendar: a year from 1, a
    month from 1 to 12 and a day the month has. *)
Definition is_calendar_date (date_text : string) : bool :=
  match PyStr.split "-" date_text with
  | [ys; ms; ds] =>
      let y := decimal_value ys in
      let m := decimal_value ms in
      let d := decimal_value ds in
      (1 <=? y) && ((1 <=? m) && (m <=? 12)) && ((1 <=? d) && (d <=? days_in_month y m))
  | _ => false
  end.

(** An accepted transaction dated on a day that does not exist. *)
Definition impossible_date_transaction : Transaction.t :=
  Transaction.mk (PyNum.of_Z 50) "expense" "groceries" "2025-02-30" None.

(** The text holds ASCII characters only. *)
Definition ascii_text (s : string) : bool :=
  forallb (fun c => (N_of_ascii c <? 128)%N) (list_ascii_of_string s).

(** An accepted transaction dated 5 January 2025 in Arabic-Indic digits. *)
Definition arabic_indic_date_transaction : Transaction.t :=
  Transaction.mk (PyNum.of_Z 50) "expense" "groceries" "٢٠٢٥-٠١-٠٥" None.

(** The store with another outcome of the coming inserts. *)
Definition with_faults (fs : list bool) (st : store) : store :=
  mkStore (docs_of st) (next_id st) fs.

(** The classifier of the Intent Responder, in the words of the spec:
    over the lower-cased text the first matching rule wins, "spend" or
    "expense", else "income", else "budget", else the fallback. *)
Inductive intent := SpendingQuery | IncomeQuery | BudgetQuery | Fallback.

Definition classify (text : string) : intent :=
  if PyStr.contains "spend" text || PyStr.contains "expense" text then SpendingQuery
  else if PyStr.contains "income" text then IncomeQuery
  else if PyStr.contains "budget" text then BudgetQuery
  else Fallback.

(** The reply of each intent. *)
Definition respond (number_str : PyNum.number -> string) (i : intent)
    (month : option string) (s : summary_t) : result string :=
  match i with
  | SpendingQuery => spending_reply number_str month s
  | IncomeQuery => Ok (income_reply month s)
  | BudgetQuery => budget_reply number_str s
  | Fallback => Ok help_text
  end.

(** A text for numbers, for the scenarios in which none is printed by
    [str]. *)
Definition no_number_str (x : PyNum.number) : string := "".

(** The scenario with a second grocery expense in the month. *)
Definition busier_store : store :=
  snd (add_transaction
         (Transaction.mk (PyNum.of_Z 10) "expense" "groceries" "2025-01-20" None)
         scenario_store).

Definition budget_question : ChatRequest.t :=
  ChatRequest.mk "how is my budget?" (Some "2025-01").

(** What a returned document owes to the fetched one: no [_id] field,
    and the text of the fetched [_id], when there was one, under [id]. *)
Definition id_surfaced (number_str : PyNum.number -> string)
    (fetched returned : doc) : Prop :=
  PyDict.get "_id" returned = None /\
  (forall v, PyDict.get "_id" fetched = Some v ->
             PyDict.get "id" returned = Some (VStr (py_str number_str v))).

(** * Notions used to state further properties *)

(** The distinct values of a list in the order of their first
    appearance, those of [seen] left out. *)
Fixpoint first_seen (seen : list value) (l : list value) : list value :=
  match l with
  | [] => []
  | k :: rest =>
      if existsb (value_eqb k) seen then first_seen seen rest
      else k :: first_seen (seen ++ [k])%list rest
  end.

(** A fetched document that is neither an income nor an expense, with an
    amount that is not a number. *)
Definition transfer_note : doc :=
  [("type", VStr "transfer"); ("amount", VStr "n/a")].

(** An expense whose amount is a text, and a budget without a limit. *)
Definition garbled_expense : doc :=
  [("type", VStr "expense"); ("category", VStr "rent"); ("amount", VStr "12")].

Definition limitless_budget : doc :=
  [("month", VStr "2025-01"); ("category", VStr "rent")].

(** The store with documents put directly into a collection. *)
Definition with_docs (collection : string) (ds : list doc) (st : store) : store :=
  mkStore (fun c => if String.eqb c collection then ds else docs_of st c)
          (next_id st) (faults st).

(** Expenses of three categories, two of them of the same greatest
    total, as the store holds them, and their summary. *)
Definition tied_expenses : list doc :=
  [[("type", VStr "expense"); ("category", VStr "fun"); ("amount", VNum (PyNum.of_Z 20))];
   [("type", VStr "expense"); ("category", VStr "groceries");
    ("amount", VNum (PyNum.of_Z 50))];
   [("type", VStr "expense"); ("category", VStr "rent"); ("amount", VNum (PyNum.of_Z 30))];
   [("type", VStr "expense"); ("category", VStr "rent"); ("amount", VNum (PyNum.of_Z 20))]].

Definition tied_store : store := with_docs "transaction" tied_expenses empty_store.

Definition tied_summary : summary_t :=
  mkSummary (PyNum.of_Z 0) (PyNum.of_Z 120) (PyNum.of_Z (-120))
    [(VStr "fun", PyNum.of_Z 20); (VStr "groceries", PyNum.of_Z 50);
     (VStr "rent", PyNum.of_Z 50)]
    [].

(** The entry that [max_by] settles on, with its value. *)
Fixpoint max_entry (d : list (value * PyNum.number)) (best : value * PyNum.number)
    : value * PyNum.number :=
  match d with
  | [] => best
  | (k, v) :: rest =>
      if PyNum.gtb v (snd best) then max_entry rest (k, v) else max_entry rest best
  end.

(** A budget whose limit is a text, as a document put into the store by
    other means than the API could hold. *)
Definition worded_budget : doc :=
  [("month", VStr "2025-01"); ("category", VStr "rent"); ("limit", VStr "high")].

Definition rent_budget : Budget.t :=
  Budget.mk "2025-01" "rent" (PyNum.of_Z 900).

(** The two documents that a chat logs, as the store holds them. *)
Definition logged_message (oid : ObjectId) (role content : string) : doc :=
  [("_id", VOid oid); ("role", VStr role); ("content", VStr content);
   ("session_id", VNone)].

(** The ten digits, and their values. *)
Definition digit_chars : list ascii :=
  ["0"; "1"; "2"; "3"; "4"; "5"; "6"; "7"; "8"; "9"]%char.

Definition ten : list N := [0; 1; 2; 3; 4; 5; 6; 7; 8; 9]%N.

(** The document that GET /api/transactions returns for a posted
    transaction whose insert returned [id]. *)
Definition listed_transaction (txn : Transaction.t) (id : string) : doc :=
  [("amount", VNum (Transaction.amount txn)); ("type", VStr (Transaction.type txn));
   ("category", VStr (Transaction.category txn)); ("date", VStr (Transaction.date txn));
   ("notes", none_or_str (Transaction.notes txn)); ("id", VStr id)].

(** The document that GET /api/budgets returns for a budget that was set
    and whose insert returned [id]. *)
Definition listed_budget (b : Budget.t) (id : string) : doc :=
  [("month", VStr (Budget.month b)); ("category", VStr (Budget.category b));
   ("limit", VNum (Budget.limit b)); ("id", VStr id)].



(** A budget for a month that the calendar does not have. *)
Definition thirteenth_month_budget : Budget.t :=
  Budget.mk "2025-13" "groceries" (PyNum.of_Z 40).

(** ** The diagnostic endpoint

    [GET /test].  The module-level [db] is [None] or a handle whose
    [list_collection_names()] returns the names or raises; [raised] is
    the text [str(e)] of what it raises.  [getenv] is [os.getenv].  The
    outer [except] of the function guards statements that do not raise
    and is never entered. *)

Inductive listing :=
| names_are (names : list string)
| raised (text : string).

Record diagnostic := mkDiagnostic {
  backend : string;
  database : string;
  database_url : option string;
  database_name : option string;
  connection_status : string;
  collections : list string
}.

(** ["✅ Set" if os.getenv(name) else "❌ Not Set"] *)
Definition set_or_not (getenv : string -> option string) (name : string) : string :=
  match given (getenv name) with
  | Some _ => "✅ Set"
  | None => "❌ Not Set"
  end.

Definition test_database (db : option listing) (getenv : string -> option string)
    : diagnostic :=
  match db with
  | Some handle =>
      let url := Some (set_or_not getenv "DATABASE_URL") in
      let name := Some (set_or_not getenv "DATABASE_NAME") in
      match handle with
      | names_are names =>
          mkDiagnostic "✅ Running" "✅ Connected & Working" url name
                       "Connected" (firstn 10 names)
      | raised text =>
          mkDiagnostic "✅ Running"
                       ("⚠️ Connected but Error: " ++ Unicode.take 80 text)
                       url name "Not Connected" []
      end
  | None =>
      mkDiagnostic "✅ Running" "⚠️ Available but not initialized" None None
                   "Not Connected" []
  end.

(** [GET /] *)
Definition read_root : string := "Personal Finance Assistant API is running".

(** What a listing endpoint keeps of a fetched document: every field but
    [_id], [id] and, for a transaction, [date], which is the ISO text of
    a timestamp and otherwise what it was. *)
Definition budget_shown (fetched returned : doc) : Prop :=
  forall k, k <> "_id" -> k <> "id" -> PyDict.get k returned = PyDict.get k fetched.

Definition transaction_shown (fetched returned : doc) : Prop :=
  (forall k, k <> "_id" -> k <> "id" -> k <> "date" ->
             PyDict.get k returned = PyDict.get k fetched) /\
  PyDict.get "date" returned
  = match PyDict.get "date" fetched with
    | Some (VDate dt) => Some (VStr (date_isoformat dt))
    | other => other
    end.

(** * Properties *)

Local Open Scope list_scope.

(** ** Equality tests *)

Lemma number_eqb_eq (a b : PyNum.number) : number_eqb a b = true <-> a = b.
Proof.
  unfold number_eqb. rewrite Qeq_bool_iff. split.
  - apply Qc_is_canon.
  - intros ->. reflexivity.
Qed.

Lemma datetime_eqb_eq (a b : datetime) : datetime_eqb a b = true <-> a = b.
Proof.
  unfold datetime_eqb. destruct a, b; simpl.
  rewrite !andb_true_iff, !Z.eqb_eq. split.
  - intros [[[[[[-> ->] ->] ->] ->] ->] ->]. reflexivity.
  - intros E. injection E as -> -> -> -> -> -> ->. repeat split.
Qed.

Lemma value_eqb_eq (a b : value) : value_eqb a b = true <-> a = b.
Proof.
  destruct a, b; simpl; try (split; [discriminate | congruence]).
  - split; reflexivity.
  - rewrite number_eqb_eq. split; congruence.
  - rewrite String.eqb_eq. split; congruence.
  - rewrite datetime_eqb_eq. split; congruence.
  - rewrite String.eqb_eq. destruct o, o0; simpl. split; congruence.
Qed.

Lemma value_eqb_refl (a : value) : value_eqb a a = true.
Proof. apply value_eqb_eq. reflexivity. Qed.

Lemma value_eqb_neq (a b : value) : value_eqb a b = false <-> a <> b.
Proof.
  rewrite <- value_eqb_eq. destruct (value_eqb a b); split; congruence.
Qed.

#[global] Instance string_key_ok : KeyOk string.
Proof. intros a b. apply String.eqb_eq. Qed.

#[global] Instance value_key_ok : KeyOk value.
Proof. intros a b. apply value_eqb_eq. Qed.

(** ** Dictionaries *)

Section DictFacts.
Context {K V : Type} `{KeyOk K}.
Implicit Types (k : K) (v : V) (d : list (K * V)).

Lemma keqb_refl k : keqb k k = true.
Proof. apply keqb_eq. reflexivity. Qed.

Lemma keqb_neq k k' : k <> k' -> keqb k k' = false.
Proof.
  intros N. destruct (keqb k k') eqn:E; [|reflexivity].
  apply keqb_eq in E. contradiction.
Qed.

Lemma get_set_same k v d : PyDict.get k (PyDict.set k v d) = Some v.
Proof.
  induction d as [|[k' v'] d IH]; simpl.
  - rewrite keqb_refl. reflexivity.
  - destruct (keqb k' k) eqn:E; simpl; rewrite E; [reflexivity | exact IH].
Qed.

Lemma get_set_other k k' v d :
  k <> k' -> PyDict.get k' (PyDict.set k v d) = PyDict.get k' d.
Proof.
  intros N. induction d as [|[k0 v0] d IH]; simpl.
  - rewrite keqb_neq by exact N. reflexivity.
  - destruct (keqb k0 k) eqn:E; simpl.
    + apply keqb_eq in E. subst k0. rewrite keqb_neq by exact N. reflexivity.
    + destruct (keqb k0 k'); [reflexivity | exact IH].
Qed.

Lemma get_remove_same k d : PyDict.get k (PyDict.remove k d) = None.
Proof.
  induction d as [|[k' v'] d IH]; simpl; [reflexivity|].
  destruct (keqb k' k) eqn:E; simpl; [exact IH | rewrite E; exact IH].
Qed.

Lemma get_remove_other k k' d :
  k <> k' -> PyDict.get k' (PyDict.remove k d) = PyDict.get k' d.
Proof.
  intros N. induction d as [|[k0 v0] d IH]; simpl; [reflexivity|].
  destruct (keqb k0 k) eqn:E; simpl.
  - apply keqb_eq in E. subst k0. rewrite keqb_neq by exact N. exact IH.
  - destruct (keqb k0 k'); [reflexivity | exact IH].
Qed.



Lemma get_In k v d : PyDict.get k d = Some v -> In (k, v) d.
Proof.
  induction d as [|[k' v'] d IH]; simpl; [discriminate|].
  destruct (keqb k' k) eqn:E.
  - apply keqb_eq in E. intros [= ->]. left. congruence.
  - intros G. right. exact (IH G).
Qed.

End DictFacts.

(** ** Sums *)

Lemma of_Z_0 : PyNum.of_Z 0 = 0%Qc.
Proof. apply Qc_is_canon. reflexivity. Qed.

(** ** Results *)

Lemma bind_Ok {A B} (r : result A) (k : A -> result B) (b : B) :
  bind r k = Ok b -> exists a, r = Ok a /\ k a = Ok b.
Proof. destruct r as [a|e]; simpl; [eauto | discriminate]. Qed.

Lemma http_guard_Ok {A} (r : result A) (a : A) :
  http_guard r = Ok a -> r = Ok a.
Proof. destruct r; simpl; [congruence | discriminate]. Qed.

Lemma as_number_Ok (v : value) (x : PyNum.number) :
  as_number v = Ok x -> v = VNum x.
Proof. destruct v; simpl; congruence. Qed.

(** What a successful [summary] went through. *)
Lemma summary_Ok (month : option string) (st : store) (s : summary_t) :
  summary month st = Ok s ->
  exists flt,
    date_filter month = Ok flt /\
    aggregate (get_documents st "transaction" flt None)
              (get_documents st "budget" (month_filter month) None) = Ok s.
Proof.
  unfold summary. intros E. apply http_guard_Ok in E.
  apply bind_Ok in E. exact E.
Qed.

Lemma aggregate_Ok (docs budget_docs : list doc) (s : summary_t) :
  aggregate docs budget_docs = Ok s ->
  exists inc exp by_cat bs,
    sum_amounts "income" docs (PyNum.of_Z 0) = Ok inc /\
    sum_amounts "expense" docs (PyNum.of_Z 0) = Ok exp /\
    by_category docs [] = Ok by_cat /\
    budget_limits budget_docs [] = Ok bs /\
    s = mkSummary inc exp (inc - exp)%Qc by_cat bs.
Proof.
  unfold aggregate. intros E.
  apply bind_Ok in E as (inc & Ei & E).
  apply bind_Ok in E as (exp & Ee & E).
  apply bind_Ok in E as (bc & Ec & E).
  apply bind_Ok in E as (bs & Eb & E).
  exists inc, exp, bc, bs. repeat split; try assumption. congruence.
Qed.

(** ** The aggregation loops *)

Lemma budget_limits_lookup (budget_docs : list doc) :
  forall bs r,
    budget_limits budget_docs bs = Ok r ->
    forall c,
      PyDict.get c r =
      match last_with c budget_docs with
      | Some b => PyDict.get "limit" b
      | None => PyDict.get c bs
      end.
Proof.
  induction budget_docs as [|b rest IH]; intros bs r E c; simpl in *.
  - congruence.
  - apply bind_Ok in E as (lim & El & E).
    apply bind_Ok in E as (cat & Ec & E).
    rewrite (IH _ _ E c).
    destruct (last_with c rest) as [b'|]; [reflexivity|].
    unfold getitem in El, Ec.
    destruct (PyDict.get "limit" b) as [l|] eqn:Gl; [|discriminate].
    destruct (PyDict.get "category" b) as [k|] eqn:Gc; [|discriminate].
    injection El as ->. injection Ec as ->.
    unfold doc_get, PyDict.get_default. rewrite Gc.
    destruct (value_eqb cat c) eqn:Q.
    + apply value_eqb_eq in Q. subst c. rewrite Gl. apply get_set_same.
    + apply value_eqb_neq in Q. apply get_set_other. exact Q.
Qed.

(** The last document of a category is the one no later document of the
    sequence shares the category with. *)
Lemma last_with_split (c : value) (pre : list doc) (b : doc) (post : list doc) :
  doc_get "category" b = c ->
  (forall b', In b' post -> doc_get "category" b' <> c) ->
  last_with c (pre ++ b :: post) = Some b.
Proof.
  intros Hb Hpost.
  assert (P : last_with c post = None).
  { induction post as [|p post IH]; simpl; [reflexivity|].
    rewrite IH by (intros; apply Hpost; right; assumption).
    destruct (value_eqb (doc_get "category" p) c) eqn:Q; [|reflexivity].
    apply value_eqb_eq in Q. exfalso. apply (Hpost p); [left; reflexivity | exact Q]. }
  induction pre as [|q pre IH]; simpl.
  - rewrite P, Hb, value_eqb_refl. reflexivity.
  - rewrite IH. reflexivity.
Qed.

Lemma budget_limits_fields (budget_docs : list doc) :
  forall bs r,
    budget_limits budget_docs bs = Ok r ->
    Forall (fun b => exists k l, PyDict.get "category" b = Some k /\
                                 PyDict.get "limit" b = Some l) budget_docs.
Proof.
  induction budget_docs as [|b rest IH]; intros bs r E; simpl in *.
  - constructor.
  - apply bind_Ok in E as (lim & El & E).
    apply bind_Ok in E as (cat & Ec & E).
    constructor; [|eapply IH; eassumption].
    unfold getitem in El, Ec.
    destruct (PyDict.get "limit" b); [|discriminate].
    destruct (PyDict.get "category" b); [|discriminate]. eauto.
Qed.

(** ** The expense total and the categories, over binary64 *)

Section Rounding.
Import PrimFloat.
#[local] Set Warnings "-inexact-float".








(** *** The entry of a category *)

Lemma fvalue_eqb_str (a : Binary64.fvalue) (c : string) :
  Binary64.fvalue_eqb a (Binary64.FStr c) = true -> a = Binary64.FStr c.
Proof.
  destruct a as [| x | s]; simpl; try discriminate.
  intros E. apply String.eqb_eq in E. congruence.
Qed.

Lemma fvalue_eqb_str_refl (c : string) :
  Binary64.fvalue_eqb (Binary64.FStr c) (Binary64.FStr c) = true.
Proof. simpl. apply String.eqb_refl. Qed.

(** Looking up a category named by a text after an assignment. *)
Lemma get_str_set (cat : Binary64.fvalue) (c : string) (v : float)
    (d : list (Binary64.fvalue * float)) :
  PyDict.get (Binary64.FStr c) (PyDict.set cat v d)
  = if Binary64.fvalue_eqb cat (Binary64.FStr c) then Some v
    else PyDict.get (Binary64.FStr c) d.
Proof.
  induction d as [|[k' v'] d IH]; simpl; [reflexivity|].
  unfold keqb, Binary64.fvalue_key in *.
  destruct (Binary64.fvalue_eqb k' cat) eqn:E; simpl;
    unfold keqb, Binary64.fvalue_key.
  - destruct (Binary64.fvalue_eqb cat (Binary64.FStr c)) eqn:Q.
    + apply fvalue_eqb_str in Q. subst cat. rewrite E. reflexivity.
    + destruct (Binary64.fvalue_eqb k' (Binary64.FStr c)) eqn:R; [|reflexivity].
      apply fvalue_eqb_str in R. subst k'.
      destruct cat as [| x | s]; simpl in E; try discriminate E.
      simpl in Q. rewrite String.eqb_sym in Q. congruence.
  - rewrite IH.
    destruct (Binary64.fvalue_eqb k' (Binary64.FStr c)) eqn:R; [|reflexivity].
    destruct (Binary64.fvalue_eqb cat (Binary64.FStr c)) eqn:Q; [|reflexivity].
    apply fvalue_eqb_str in R, Q. subst k' cat.
    rewrite fvalue_eqb_str_refl in E. discriminate E.
Qed.

(** X6: the entry that the loop of [summary] leaves for a category named
    by a text is the running sum, from 0 and in the order fetched, of the
    amounts of the selected expenses of that category (a missing amount
    counting 0, a missing category counting as "Other"), each addition
    rounding as binary64 does; a category without a selected expense has
    no entry. *)
Theorem category_running_sums (docs : list Binary64.fdoc)
    (by_cat : list (Binary64.fvalue * float)) :
  Binary64.by_category docs [] = Some by_cat ->
  forall c,
    PyDict.get (Binary64.FStr c) by_cat
    = match category_amounts c docs with
      | [] => None
      | xs => Some (Binary64.py_sum xs)
      end.
Proof.
  intros E c.
  (* The loop from any dictionary [bc]: the amounts are added to what the
     entry was. *)
  enough (G : forall bc r,
             Binary64.by_category docs bc = Some r ->
             PyDict.get (Binary64.FStr c) r
             = match category_amounts c docs with
               | [] => PyDict.get (Binary64.FStr c) bc
               | xs => Some (fold_left PrimFloat.add xs
                               (PyDict.get_default (Binary64.FStr c) 0%float bc))
               end)
    by exact (G [] by_cat E).
  clear E by_cat.
  induction docs as [|d rest IH]; intros bc r E; simpl in E.
  - injection E as <-. reflexivity.
  - unfold category_amounts. cbn [filter].
    destruct (Binary64.fvalue_eqb (PyDict.get_default "type" Binary64.FNone d)
                                  (Binary64.FStr "expense")); cbn [andb].
    + destruct (Binary64.as_float _) as [x|] eqn:Hx; [|discriminate E].
      remember (PyDict.get_default "category" (Binary64.FStr "Other") d) as cat eqn:Hcat.
      rewrite (IH _ _ E). fold (category_amounts c rest).
      assert (GD : forall v,
                 PyDict.get_default (Binary64.FStr c) 0%float (PyDict.set cat v bc)
                 = if Binary64.fvalue_eqb cat (Binary64.FStr c) then v
                   else PyDict.get_default (Binary64.FStr c) 0%float bc).
      { intros v. unfold PyDict.get_default. rewrite get_str_set.
        destruct (Binary64.fvalue_eqb cat (Binary64.FStr c)); reflexivity. }
      rewrite GD, get_str_set.
      destruct (Binary64.fvalue_eqb cat (Binary64.FStr c)) eqn:Q.
      * cbn [map]. fold (category_amounts c rest). rewrite Hx.
        apply fvalue_eqb_str in Q. rewrite Q.
        destruct (category_amounts c rest); reflexivity.
      * reflexivity.
    + fold (category_amounts c rest). apply IH. exact E.
Qed.

Lemma category_running_sums_witness :
  PyDict.get (Binary64.FStr "a")
    [(Binary64.FStr "a", 1.2000000000000002%float); (Binary64.FStr "b", 0.1%float)]
  = Some (Binary64.py_sum [0.1; 1.1]%float)
  /\
  PyDict.get (Binary64.FStr "c")
    [(Binary64.FStr "a", 1.2000000000000002%float); (Binary64.FStr "b", 0.1%float)]
  = None.
Proof.
  split.
  - apply (category_running_sums Binary64.rounding_expenses). vm_compute; reflexivity.
  - apply (category_running_sums Binary64.rounding_expenses _ eq_refl "c").
Defined.

End Rounding.

(** C3: in the [budgets] mapping returned by GET /api/summary, a category
    has the limit of the last budget document of that category in the
    fetched sequence: a document that no later document shares its
    category with gives the reported limit. *)
Theorem budgets_last_wins (month : option string) (st : store) (s : summary_t) :
  summary month st = Ok s ->
  forall pre b post c,
    get_documents st "budget" (month_filter month) None = pre ++ b :: post ->
    PyDict.get "category" b = Some c ->
    (forall b', In b' post -> PyDict.get "category" b' <> Some c) ->
    exists lim, PyDict.get "limit" b = Some lim /\
                PyDict.get c (budgets s) = Some lim.
Proof.
  intros E pre b post c Hdocs Hb Hpost.
  apply summary_Ok in E as (flt & _ & E).
  apply aggregate_Ok in E as (inc & exp & bc & bs & _ & _ & _ & Hl & ->).
  simpl. rewrite Hdocs in Hl.
  pose proof (budget_limits_fields _ _ _ Hl) as F.
  rewrite Forall_forall in F.
  destruct (F b) as (k & lim & Gk & Gl); [apply in_elt|].
  exists lim. split; [exact Gl|].
  rewrite (budget_limits_lookup _ _ _ Hl c), last_with_split; [exact Gl | |].
  - unfold doc_get, PyDict.get_default. rewrite Hb. reflexivity.
  - intros b' Hin Q.
    destruct (F b') as (k' & l' & Gk' & _); [apply in_or_app; right; right; exact Hin|].
    apply (Hpost b' Hin). rewrite Gk'. f_equal.
    unfold doc_get, PyDict.get_default in Q. rewrite Gk' in Q. exact Q.
Qed.

Lemma budgets_last_wins_witness :
  exists lim,
    PyDict.get "limit" (nth 1 (docs_of raised_store "budget") []) = Some lim
    /\ PyDict.get (VStr "groceries") (budgets raised_summary) = Some lim.
Proof.
  apply (budgets_last_wins (Some "2025-01") raised_store raised_summary)
    with (pre := [nth 0 (docs_of raised_store "budget") []]) (post := []).
  - vm_compute; reflexivity.
  - vm_compute; reflexivity.
  - vm_compute; reflexivity.
  - intros b' [].
Defined.

(** ** Inserting one document into the fetched sequence *)

Lemma sum_amounts_app (ty : string) (pre post : list doc) :
  forall acc,
    sum_amounts ty (pre ++ post) acc
    = bind (sum_amounts ty pre acc) (sum_amounts ty post).
Proof.
  induction pre as [|d pre IH]; intros acc; simpl; [reflexivity|].
  destruct (value_eqb (doc_get "type" d) (VStr ty)); [|apply IH].
  destruct (as_number _); simpl; [apply IH | reflexivity].
Qed.



Lemma by_category_app (pre post : list doc) :
  forall bc,
    by_category (pre ++ post) bc = bind (by_category pre bc) (by_category post).
Proof.
  induction pre as [|d pre IH]; intros bc; simpl; [reflexivity|].
  destruct (value_eqb (doc_get "type" d) (VStr "expense")); [|apply IH].
  destruct (as_number _); simpl; [apply IH | reflexivity].
Qed.











(** ** The listing endpoints *)

Section Listing.
Variable number_str : PyNum.number -> string.

Lemma show_id_surfaced (d : doc) : id_surfaced number_str d (show_id number_str d).
Proof.
  unfold id_surfaced, show_id.
  destruct (PyDict.get "_id" d) as [v|] eqn:G.
  - split.
    + rewrite get_set_other by discriminate. apply get_remove_same.
    + intros w [= <-]. apply get_set_same.
  - split; [exact G | discriminate].
Qed.

Lemma show_date_keeps_id (d : doc) :
  PyDict.get "_id" (show_date d) = PyDict.get "_id" d.
Proof.
  unfold show_date. destruct (doc_get "date" d); try reflexivity.
  apply get_set_other. discriminate.
Qed.

Lemma Forall2_map_r {A B} (R : A -> B -> Prop) (f : A -> B) (l : list A) :
  (forall a, R a (f a)) -> Forall2 R l (map f l).
Proof. intros F. induction l; simpl; constructor; auto. Qed.

(** C8: in the [items] of GET /api/transactions and of GET /api/budgets,
    each returned document has no [_id] field, and when the fetched
    document carried an [_id] the returned one carries under [id] the
    text of that identifier. *)
Theorem listed_documents_surface_id (st : store) :
  (forall limit,
      exists items,
        list_transactions number_str limit st = Ok items /\
        Forall2 (id_surfaced number_str) (get_documents st "transaction" [] limit) items)
  /\
  (forall month,
      exists items,
        list_budgets number_str month st = Ok items /\
        Forall2 (id_surfaced number_str)
          (get_documents st "budget" (month_filter month) None) items).
Proof.
  split.
  - intros limit. eexists. split; [reflexivity|].
    apply Forall2_map_r. intros d.
    destruct (show_id_surfaced (show_date d)) as [A B].
    split; [exact A|]. intros v G. apply B.
    rewrite show_date_keeps_id. exact G.
  - intros month. eexists. split; [reflexivity|].
    apply Forall2_map_r. apply show_id_surfaced.
Qed.

End Listing.

(** ** Errors of the month parameter *)

Lemma unpack_year_month_Ok (parts : list string) (y m : Z) :
  unpack_year_month parts = Ok (y, m) ->
  exists a b, parts = [a; b] /\ py_int a = Ok y /\ py_int b = Ok m.
Proof.
  unfold unpack_year_month.
  destruct parts as [|a [|b [|c rest]]]; try discriminate.
  - destruct (py_int a); discriminate.
  - destruct (py_int a) as [y'|] eqn:Ea; simpl; [|discriminate].
    destruct (py_int b) as [m'|] eqn:Eb; simpl; [|discriminate].
    intros [= -> ->]. eauto.
  - destruct (py_int a); simpl; [|discriminate].
    destruct (py_int b); simpl; [|discriminate].
    destruct (py_int c); discriminate.
Qed.

Lemma unpack_year_month_Raise (parts : list string) (e : exn) :
  unpack_year_month parts = Raise e -> unpack_error parts e.
Proof.
  unfold unpack_year_month, unpack_error.
  destruct parts as [|a [|b [|c rest]]].
  - intros [= <-]. right. exists 0%nat. repeat split; discriminate.
  - destruct (py_int a) as [y|e'] eqn:Ea; simpl.
    + intros [= <-]. right. exists 1%nat. repeat split; discriminate.
    + intros [= <-]. left. exists a. split; [left; reflexivity | exact Ea].
  - destruct (py_int a) as [y|e'] eqn:Ea; simpl.
    + destruct (py_int b) as [m|e''] eqn:Eb; simpl; [discriminate|].
      intros [= <-]. left. exists b. split; [right; left; reflexivity | exact Eb].
    + intros [= <-]. left. exists a. split; [left; reflexivity | exact Ea].
  - destruct (py_int a) as [y|e'] eqn:Ea; simpl.
    + destruct (py_int b) as [m|e''] eqn:Eb; simpl.
      * destruct (py_int c) as [z|e3] eqn:Ec; simpl.
        -- intros [= <-]. right. exists 3%nat. repeat split; discriminate.
        -- intros [= <-]. left. exists c.
           split; [right; right; left; reflexivity | exact Ec].
      * intros [= <-]. left. exists b. split; [right; left; reflexivity | exact Eb].
    + intros [= <-]. left. exists a. split; [left; reflexivity | exact Ea].
Qed.

Lemma given_nonempty (mth : string) : mth <> "" -> given (Some mth) = Some mth.
Proof. destruct mth; [congruence | reflexivity]. Qed.

(** C9: a non-empty [month] of GET /api/summary that does not split on
    "-" into exactly two texts accepted by [int], or whose month number
    is outside 1..12, is answered by the server error of status 500, not
    by a validation error, and the error carries the exception that the
    month raised: the one of [int] on a part or of the unpacking in the
    first case, the one of [datetime(year, m, 1)] in the second. *)
Theorem bad_month_is_server_error (mth : string) (st : store) :
  mth <> "" ->
  (year_month_parts mth = None \/
   exists y m, year_month_parts mth = Some (y, m) /\ (m < 1 \/ 12 < m)) ->
  exists e,
    date_filter (Some mth) = Raise e /\
    summary (Some mth) st = Raise (HTTPException 500 e) /\
    match year_month_parts mth with
    | Some (y, m) => e = DateOutOfRange y m 1
    | None => unpack_error (PyStr.split "-" mth) e
    end.
Proof.
  intros NE H. unfold summary, date_filter. rewrite (given_nonempty _ NE).
  destruct (unpack_year_month (PyStr.split "-" mth)) as [[y m]|e] eqn:U; simpl.
  - apply unpack_year_month_Ok in U as (a & b & Hs & Ha & Hb).
    assert (P : year_month_parts mth = Some (y, m)).
    { unfold year_month_parts. rewrite Hs, Ha, Hb. reflexivity. }
    destruct H as [H | (y' & m' & H & R)]; [congruence|].
    assert (m' = m) by congruence. subst m'. rewrite P.
    exists (DateOutOfRange y m 1).
    assert (D : datetime_ymd y m 1 = Raise (DateOutOfRange y m 1)).
    { unfold datetime_ymd.
      destruct ((1 <=? y) && (y <=? 9999)); simpl; [|reflexivity].
      replace ((1 <=? m) && (m <=? 12)) with false; [reflexivity|].
      symmetry. apply andb_false_iff. rewrite Z.leb_gt, Z.leb_gt. lia. }
    rewrite D. repeat split.
  - exists e. split; [reflexivity|]. split; [reflexivity|].
    assert (P : year_month_parts mth = None).
    { unfold year_month_parts.
      destruct (PyStr.split "-" mth) as [|a [|b [|c rest]]]; try reflexivity.
      unfold unpack_year_month in U.
      destruct (py_int a); [|reflexivity].
      destruct (py_int b); [discriminate U | reflexivity]. }
    rewrite P. apply unpack_year_month_Raise. exact U.
Qed.

Lemma bad_month_is_server_error_witness :
  (exists e,
      date_filter (Some "2025-13") = Raise e /\
      summary (Some "2025-13") scenario_store = Raise (HTTPException 500 e) /\
      e = DateOutOfRange 2025 13 1)
  /\
  (exists e,
      date_filter (Some "abc") = Raise e /\
      summary (Some "abc") scenario_store = Raise (HTTPException 500 e) /\
      unpack_error ["abc"] e).
Proof.
  split.
  - apply (bad_month_is_server_error "2025-13" scenario_store); [discriminate|].
    right. exists 2025, 13. split; [vm_compute; reflexivity | lia].
  - apply (bad_month_is_server_error "abc" scenario_store); [discriminate|].
    left. vm_compute; reflexivity.
Defined.

(** ** Texts of digits *)

Lemma is_digit_cases (c : ascii) :
  PyStr.is_digit c = true ->
  In c ["0"; "1"; "2"; "3"; "4"; "5"; "6"; "7"; "8"; "9"]%char.
Proof.
  destruct c as [[] [] [] [] [] [] [] []]; intros E;
    try discriminate E; simpl; tauto.
Qed.

Ltac digit_cases c H :=
  apply is_digit_cases in H; simpl in H;
  repeat (destruct H as [H | H]; [subst c | ]); [.. | contradiction].

Lemma digit_val_range (c : ascii) :
  PyStr.is_digit c = true -> 0 <= PyStr.digit_val c <= 9.
Proof. intros E. digit_cases c E; vm_compute; split; discriminate. Qed.

Lemma digit_not_space (c : ascii) : PyStr.is_digit c = true -> is_space c = false.
Proof. intros E. digit_cases c E; reflexivity. Qed.

Lemma all_digits_list (s : string) :
  PyStr.all_digits s = forallb PyStr.is_digit (list_ascii_of_string s).
Proof. induction s as [|c s IH]; simpl; [reflexivity | rewrite IH; reflexivity]. Qed.

Lemma string_rev_involutive (s : string) : string_rev (string_rev s) = s.
Proof.
  unfold string_rev.
  rewrite list_ascii_of_string_of_list_ascii, rev_involutive.
  apply string_of_list_ascii_of_string.
Qed.

Lemma all_digits_rev (s : string) :
  PyStr.all_digits s = true -> PyStr.all_digits (string_rev s) = true.
Proof.
  unfold string_rev. rewrite !all_digits_list, list_ascii_of_string_of_list_ascii.
  rewrite !forallb_forall. intros F c Hc. apply F. apply in_rev. exact Hc.
Qed.

Lemma lstrip_digits (s : string) : PyStr.all_digits s = true -> lstrip s = s.
Proof.
  destruct s as [|c s]; simpl; [reflexivity|].
  intros E. apply andb_true_iff in E as [E _].
  rewrite (digit_not_space _ E). reflexivity.
Qed.

Lemma strip_digits (s : string) : PyStr.all_digits s = true -> strip s = s.
Proof.
  intros E. unfold strip. rewrite (lstrip_digits _ E).
  rewrite (lstrip_digits _ (all_digits_rev _ E)). apply string_rev_involutive.
Qed.

Lemma int_body_digits (s : string) :
  forall acc, PyStr.all_digits s = true ->
              int_body true acc s = Some (PyStr.digits_val acc s).
Proof.
  induction s as [|c s IH]; intros acc E; simpl in *; [reflexivity|].
  apply andb_true_iff in E as [Ec Es]. rewrite Ec. apply IH. exact Es.
Qed.

Lemma int_literal_digits (t : string) :
  PyStr.all_digits t = true -> t <> "" ->
  int_literal t = Some (PyStr.digits_val 0 t).
Proof.
  intros E NE. destruct t as [|c t]; [congruence|].
  simpl in E. apply andb_true_iff in E as [Ec Es]. unfold int_literal.
  digit_cases c Ec; simpl; rewrite (int_body_digits _ _ Es); reflexivity.
Qed.

Lemma count_digits_all (t : string) :
  PyStr.all_digits t = true -> count_digits t = String.length t.
Proof.
  induction t as [|c t IH]; simpl; [reflexivity|].
  intros E. apply andb_true_iff in E as [Ec Es]. rewrite Ec, (IH Es). reflexivity.
Qed.

(** *** Decimal digits of any script *)

Lemma decimal_run (cp : N) (d : Z) :
  Unicode.decimal cp = Some d ->
  exists zero,
    In zero Unicode.nd_zeros /\ (zero <= cp < zero + 10)%N /\ d = Z.of_N (cp - zero).
Proof.
  unfold Unicode.decimal.
  destruct (find _ Unicode.nd_zeros) as [z|] eqn:F; [|discriminate].
  intros [= <-]. apply find_some in F as [I C].
  apply andb_true_iff in C as [C1 C2].
  apply N.leb_le in C1. apply N.ltb_lt in C2.
  exists z. repeat split; assumption.
Qed.

Lemma decimal_range (cp : N) (d : Z) : Unicode.decimal cp = Some d -> 0 <= d <= 9.
Proof. intros D. destruct (decimal_run _ _ D) as (z & _ & R & ->). lia. Qed.

Lemma In_ten (i : N) : (i < 10)%N -> In i ten.
Proof. intros L. unfold ten. simpl. lia. Qed.

Lemma ascii_digits_all :
  forallb (fun i => PyStr.is_digit (ascii_of_N (48 + i))
                    && (PyStr.digit_val (ascii_of_N (48 + i)) =? Z.of_N i)) ten = true.
Proof. vm_compute. reflexivity. Qed.

Lemma ascii_digit_of (i : N) :
  (i < 10)%N ->
  PyStr.is_digit (ascii_of_N (48 + i)) = true /\
  PyStr.digit_val (ascii_of_N (48 + i)) = Z.of_N i.
Proof.
  intros L. pose proof ascii_digits_all as A. rewrite forallb_forall in A.
  specialize (A i (In_ten i L)). apply andb_true_iff in A as [A1 A2].
  apply Z.eqb_eq in A2. split; assumption.
Qed.

Lemma zeros_apart :
  forallb (fun zero => (zero =? 48)%N || (127 <=? zero)%N) Unicode.nd_zeros = true.
Proof. vm_compute. reflexivity. Qed.

Lemma no_digit_is_space :
  forallb (fun zero => forallb (fun i => negb (Unicode.is_space (zero + i))) ten)
          Unicode.nd_zeros = true.
Proof. vm_compute. reflexivity. Qed.

(** [int] reads a decimal digit of any script as the ASCII digit of its
    value. *)
Lemma ascii_of_decimal (cp : N) (d : Z) :
  Unicode.decimal cp = Some d ->
  PyStr.is_digit (ascii_of_code_point cp) = true /\
  PyStr.digit_val (ascii_of_code_point cp) = d.
Proof.
  intros D. destruct (decimal_run _ _ D) as (z & I & R & ->).
  assert (Li : (cp - z < 10)%N) by lia.
  unfold ascii_of_code_point. destruct (cp <? 127)%N eqn:L.
  - apply N.ltb_lt in L.
    pose proof zeros_apart as Z0. rewrite forallb_forall in Z0.
    specialize (Z0 z I). apply orb_true_iff in Z0 as [Z0 | Z0].
    + apply N.eqb_eq in Z0. subst z.
      destruct (ascii_digit_of _ Li) as [A1 A2].
      replace (48 + (cp - 48))%N with cp in A1, A2 by lia.
      split; assumption.
    + apply N.leb_le in Z0. lia.
  - pose proof no_digit_is_space as S0. rewrite forallb_forall in S0.
    specialize (S0 z I). rewrite forallb_forall in S0.
    specialize (S0 _ (In_ten _ Li)).
    replace (z + (cp - z))%N with cp in S0 by lia.
    apply negb_true_iff in S0. rewrite S0, D, N2Z.id.
    apply ascii_digit_of. exact Li.
Qed.

Lemma ascii_of_decimals (cps : list N) :
  forall acc v,
    Unicode.decimal_val acc cps = Some v ->
    PyStr.all_digits (string_of_list_ascii (map ascii_of_code_point cps)) = true /\
    PyStr.digits_val acc (string_of_list_ascii (map ascii_of_code_point cps)) = v /\
    String.length (string_of_list_ascii (map ascii_of_code_point cps))
    = List.length cps.
Proof.
  induction cps as [|cp rest IH]; intros acc v D; simpl in *.
  - injection D as <-. repeat split.
  - destruct (Unicode.decimal cp) as [d|] eqn:Dc; [|discriminate].
    destruct (ascii_of_decimal _ _ Dc) as [A1 A2].
    destruct (IH _ _ D) as (B1 & B2 & B3).
    rewrite A1, A2, B1, B2, B3. repeat split.
Qed.

(** [int] on a text of decimal digits, of any script, is the number they
    write. *)
Lemma py_int_decimal (s : string) (cps : list N) (v : Z) :
  Unicode.code_points s = Some cps ->
  cps <> [] -> (List.length cps <= max_str_digits)%nat ->
  Unicode.decimal_val 0 cps = Some v ->
  py_int s = Ok v.
Proof.
  intros C NE L D. unfold py_int. rewrite C.
  destruct (ascii_of_decimals _ _ _ D) as (A & V & Len).
  assert (NT : string_of_list_ascii (map ascii_of_code_point cps) <> "").
  { destruct cps; [congruence | discriminate]. }
  rewrite (strip_digits _ A), (int_literal_digits _ A NT), (count_digits_all _ A).
  rewrite Len, V.
  replace (Nat.ltb max_str_digits (List.length cps)) with false; [reflexivity|].
  symmetry. apply Nat.ltb_ge. exact L.
Qed.

Lemma decimal_val_bounds (cps : list N) :
  forall acc,
    forallb Unicode.is_decimal cps = true -> 0 <= acc ->
    exists v,
      Unicode.decimal_val acc cps = Some v /\
      acc * 10 ^ Z.of_nat (List.length cps) <= v
      < (acc + 1) * 10 ^ Z.of_nat (List.length cps).
Proof.
  induction cps as [|cp rest IH]; intros acc F A.
  - exists acc. split; [reflexivity|]. simpl. lia.
  - cbn [forallb] in F. apply andb_true_iff in F as [Fc Fr].
    unfold Unicode.is_decimal in Fc.
    destruct (Unicode.decimal cp) as [d|] eqn:D; [|discriminate].
    pose proof (decimal_range _ _ D) as R.
    destruct (IH (10 * acc + d) Fr ltac:(lia)) as (v & Hv & B).
    exists v. split; [simpl; rewrite D; exact Hv|].
    cbn [List.length]. rewrite Nat2Z.inj_succ, Z.pow_succ_r by lia.
    assert (P : 0 < 10 ^ Z.of_nat (List.length rest)) by (apply Z.pow_pos_nonneg; lia).
    nia.
Qed.

(** A text of [n] decimal digits: its code points, the number it writes,
    and what [int] makes of it. *)
Lemma digits_parts (n : nat) (s : string) :
  digits n s = true ->
  exists cps,
    Unicode.code_points s = Some cps /\ List.length cps = n /\
    Unicode.decimal_val 0 cps = Some (decimal_value s) /\
    0 <= decimal_value s < 10 ^ Z.of_nat n.
Proof.
  unfold digits, decimal_value.
  destruct (Unicode.code_points s) as [cps|]; [|discriminate].
  intros E. apply andb_true_iff in E as [L F]. apply Nat.eqb_eq in L.
  destruct (decimal_val_bounds cps 0 F ltac:(lia)) as (v & Hv & B).
  exists cps. rewrite Hv, <- L. repeat split; try reflexivity; lia.
Qed.

Lemma py_int_digits (n : nat) (s : string) :
  digits n s = true -> (1 <= n <= max_str_digits)%nat ->
  py_int s = Ok (decimal_value s).
Proof.
  intros E B. destruct (digits_parts _ _ E) as (cps & C & L & D & _).
  apply (py_int_decimal s cps); try assumption.
  - intros ->. simpl in L. lia.
  - lia.
Qed.

Lemma small_widths : (1 <= 2 <= max_str_digits)%nat /\ (1 <= 4 <= max_str_digits)%nat.
Proof. unfold max_str_digits. lia. Qed.

(** *** Texts in ASCII *)

Lemma decimal_ascii (c : ascii) :
  (N_of_ascii c <? 128)%N = true ->
  Unicode.decimal (N_of_ascii c)
  = if PyStr.is_digit c then Some (PyStr.digit_val c) else None.
Proof.
  destruct c as [[] [] [] [] [] [] [] []]; intros E;
    try discriminate E; vm_compute; reflexivity.
Qed.

Lemma ascii_text_cons (c : ascii) (s : string) :
  ascii_text (String c s) = (N_of_ascii c <? 128)%N && ascii_text s.
Proof. reflexivity. Qed.

Lemma code_points_ascii (s : string) :
  ascii_text s = true ->
  Unicode.code_points s = Some (map N_of_ascii (list_ascii_of_string s)).
Proof.
  unfold Unicode.code_points.
  induction s as [|c s IH]; intros A; [reflexivity|].
  rewrite ascii_text_cons in A. apply andb_true_iff in A as [Ac As].
  cbn [Unicode.decode list_ascii_of_string map]. cbv zeta.
  rewrite Ac, (IH As). reflexivity.
Qed.

Lemma all_digits_ascii (s : string) : PyStr.all_digits s = true -> ascii_text s = true.
Proof.
  induction s as [|c s IH]; intros E; [reflexivity|].
  simpl in E. apply andb_true_iff in E as [Ec Es].
  rewrite ascii_text_cons, (IH Es), andb_true_r.
  digit_cases c Ec; reflexivity.
Qed.

Lemma decimal_val_ascii (s : string) :
  forall acc,
    ascii_text s = true ->
    Unicode.decimal_val acc (map N_of_ascii (list_ascii_of_string s))
    = if PyStr.all_digits s then Some (PyStr.digits_val acc s) else None.
Proof.
  induction s as [|c s IH]; intros acc A; [reflexivity|].
  rewrite ascii_text_cons in A. apply andb_true_iff in A as [Ac As].
  cbn [list_ascii_of_string map Unicode.decimal_val PyStr.all_digits PyStr.digits_val].
  rewrite (decimal_ascii _ Ac).
  destruct (PyStr.is_digit c); [apply IH; exact As | reflexivity].
Qed.

Lemma forallb_decimal_ascii (s : string) :
  ascii_text s = true ->
  forallb Unicode.is_decimal (map N_of_ascii (list_ascii_of_string s))
  = PyStr.all_digits s.
Proof.
  induction s as [|c s IH]; intros A; [reflexivity|].
  rewrite ascii_text_cons in A. apply andb_true_iff in A as [Ac As].
  cbn [list_ascii_of_string map forallb PyStr.all_digits].
  unfold Unicode.is_decimal at 1. rewrite (decimal_ascii _ Ac), (IH As).
  destruct (PyStr.is_digit c); reflexivity.
Qed.

Lemma length_list_ascii (s : string) :
  List.length (list_ascii_of_string s) = String.length s.
Proof. induction s as [|c s IH]; simpl; [reflexivity | rewrite IH; reflexivity]. Qed.

(** On an ASCII text the decimal digits are the ten ASCII digits. *)
Lemma digits_ascii (n : nat) (s : string) :
  ascii_text s = true ->
  digits n s = Nat.eqb (String.length s) n && PyStr.all_digits s.
Proof.
  intros A. unfold digits.
  rewrite (code_points_ascii _ A), length_map, length_list_ascii.
  rewrite (forallb_decimal_ascii _ A). reflexivity.
Qed.

Lemma decimal_value_ascii (s : string) :
  PyStr.all_digits s = true -> decimal_value s = PyStr.digits_val 0 s.
Proof.
  intros E. pose proof (all_digits_ascii _ E) as A.
  unfold decimal_value.
  rewrite (code_points_ascii _ A), (decimal_val_ascii _ _ A), E. reflexivity.
Qed.

Lemma ascii_text_app (a b : string) :
  ascii_text (a ++ b) = ascii_text a && ascii_text b.
Proof.
  induction a as [|c a IH]; [reflexivity|].
  cbn [append]. rewrite !ascii_text_cons, IH. apply andb_assoc.
Qed.

Lemma split_from_ascii (sep : ascii) (s : string) :
  forall field,
    ascii_text field = true -> ascii_text s = true ->
    Forall (fun p => ascii_text p = true) (PyStr.split_from sep s field).
Proof.
  induction s as [|c s IH]; intros field F A; simpl.
  - constructor; [exact F | constructor].
  - rewrite ascii_text_cons in A. apply andb_true_iff in A as [Ac As].
    destruct (Ascii.eqb c sep).
    + constructor; [exact F | apply IH; [reflexivity | exact As]].
    + apply IH; [|exact As].
      rewrite ascii_text_app, F, ascii_text_cons, Ac. reflexivity.
Qed.

Lemma digits_val_4 (s : string) :
  PyStr.all_digits s = true -> String.length s = 4%nat ->
  0 <= PyStr.digits_val 0 s <= 9999.
Proof.
  destruct s as [|a [|b [|c [|d [|e s]]]]];
    cbn [PyStr.all_digits PyStr.digits_val String.length]; try discriminate.
  intros E _.
  repeat (apply andb_true_iff in E as [?E E]).
  repeat match goal with
         | H : PyStr.is_digit _ = true |- _ => apply digit_val_range in H
         end.
  lia.
Qed.

(** ** The month interval *)

Lemma matches_date_range (lo hi : datetime) (d : doc) :
  matches [("date", Between (VDate lo) (VDate hi))] d = dated_within lo hi d.
Proof.
  unfold matches, dated_within, datetime_leb, datetime_ltb. simpl.
  destruct (PyDict.get "date" d) as [[| | |t|]|]; simpl; try reflexivity.
  destruct (datetime_compare lo t), (datetime_compare t hi); reflexivity.
Qed.

Lemma datetime_ymd_Ok (y m d : Z) (t : datetime) :
  datetime_ymd y m d = Ok t ->
  1 <= y <= 9999 /\ 1 <= m <= 12 /\ 1 <= d <= days_in_month y m
  /\ t = mkDatetime y m d 0 0 0 0.
Proof.
  unfold datetime_ymd.
  destruct ((1 <=? y) && (y <=? 9999)) eqn:Ey; simpl; [|discriminate].
  destruct ((1 <=? m) && (m <=? 12)) eqn:Em; simpl; [|discriminate].
  destruct ((1 <=? d) && (d <=? days_in_month y m)) eqn:Ed; simpl; [|discriminate].
  apply andb_true_iff in Ey as [? ?], Em as [? ?], Ed as [? ?].
  rewrite Z.leb_le in *. intros [= <-]. repeat split; assumption.
Qed.

Lemma month_bounds (y m : Z) :
  1 <= y <= 9999 -> 1 <= m <= 12 -> ~ (y = 9999 /\ m = 12) ->
  datetime_ymd y m 1 = Ok (first_of_month y m) /\
  (if m =? 12 then datetime_ymd (y + 1) 1 1 else datetime_ymd y (m + 1) 1)
  = Ok (first_of_next_month y m).
Proof.
  intros Hy Hm H9.
  assert (D : forall a b, 1 <= a <= 9999 -> 1 <= b <= 12 ->
                          datetime_ymd a b 1 = Ok (mkDatetime a b 1 0 0 0 0)).
  { intros a b Ha Hb. unfold datetime_ymd.
    replace ((1 <=? a) && (a <=? 9999)) with true
      by (symmetry; apply andb_true_iff; rewrite !Z.leb_le; lia).
    replace ((1 <=? b) && (b <=? 12)) with true
      by (symmetry; apply andb_true_iff; rewrite !Z.leb_le; lia).
    replace ((1 <=? 1) && (1 <=? days_in_month a b)) with true; [reflexivity|].
    symmetry. apply andb_true_iff. rewrite !Z.leb_le. split; [lia|].
    unfold days_in_month.
    destruct (b =? 2); [destruct (is_leap a); lia|].
    destruct ((b =? 4) || (b =? 6) || (b =? 9) || (b =? 11)); lia. }
  split; [apply D; assumption|].
  unfold first_of_next_month. destruct (m =? 12) eqn:E12.
  - apply Z.eqb_eq in E12. apply D; lia.
  - apply Z.eqb_neq in E12. apply D; lia.
Qed.

(** A text that matches the month pattern: [int] reads the year and the
    month number that its two parts write, in the digits of any script. *)
Lemma month_pattern_parts (M : string) :
  month_pattern M = true ->
  exists ys ms,
    PyStr.split "-" M = [ys; ms] /\
    py_int ys = Ok (decimal_value ys) /\
    py_int ms = Ok (decimal_value ms) /\
    0 <= decimal_value ys <= 9999.
Proof.
  unfold month_pattern. intros P.
  destruct (PyStr.split "-" M) as [|ys [|ms [|x rest]]] eqn:S; try discriminate P.
  apply andb_true_iff in P as [Py Pm].
  destruct small_widths as [W2 W4].
  exists ys, ms. split; [reflexivity|].
  split; [exact (py_int_digits 4 ys Py W4)|].
  split; [exact (py_int_digits 2 ms Pm W2)|].
  destruct (digits_parts _ _ Py) as (? & _ & _ & _ & B).
  change (10 ^ Z.of_nat 4) with 10000 in B. lia.
Qed.

Lemma summary_month_equation (M : string) (y m : Z) (st : store) :
  month_pattern M = true ->
  year_month_of M = (y, m) ->
  1 <= y -> 1 <= m <= 12 -> ~ (y = 9999 /\ m = 12) ->
  summary (Some M) st
  = http_guard
      (aggregate
         (filter (dated_within (first_of_month y m) (first_of_next_month y m))
                 (docs_of st "transaction"))
         (get_documents st "budget" (month_filter (Some M)) None)).
Proof.
  intros P YM Hy Hm H9.
  assert (NE : M <> "") by (intros ->; discriminate P).
  destruct (month_pattern_parts _ P) as (ys & ms & S & Iy & Im & By).
  unfold year_month_of in YM. rewrite S in YM. injection YM as <- <-.
  destruct (month_bounds _ _ (conj Hy (proj2 By)) Hm H9) as [D1 D2].
  unfold summary, date_filter. rewrite (given_nonempty _ NE), S.
  unfold unpack_year_month. rewrite Iy. simpl. rewrite Im. simpl.
  rewrite D1. simpl. rewrite D2. simpl.
  rewrite (filter_ext _ _ (matches_date_range _ _)). reflexivity.
Qed.

(** C2: for a month text M = "YYYY-MM", GET /api/summary with month=M
    computes a summary exactly when M names a month the calendar has (and
    its following month), and that summary is the one of exactly the
    stored transactions whose [date] lies in the half-open interval from
    the first day of M at midnight to the first day of the following
    month at midnight, January 1 of year+1 after December. *)
Theorem summary_month_interval (M : string) (y m : Z) (st : store) (s : summary_t) :
  month_pattern M = true ->
  year_month_of M = (y, m) ->
  summary (Some M) st = Ok s
  <->
  (1 <= y /\ 1 <= m <= 12 /\ ~ (y = 9999 /\ m = 12)) /\
  aggregate
    (filter (dated_within (first_of_month y m) (first_of_next_month y m))
            (docs_of st "transaction"))
    (filter (fun b => value_eqb (doc_get "month" b) (VStr M)) (docs_of st "budget"))
  = Ok s.
Proof.
  intros P YM.
  assert (NE : M <> "") by (intros ->; discriminate P).
  assert (B : get_documents st "budget" (month_filter (Some M)) None
              = filter (fun b => value_eqb (doc_get "month" b) (VStr M))
                       (docs_of st "budget")).
  { unfold get_documents, month_filter. rewrite (given_nonempty _ NE).
    apply filter_ext. intros b. unfold matches, doc_get, PyDict.get_default. simpl.
    destruct (PyDict.get "month" b) as [v|]; simpl.
    - apply andb_true_r.
    - reflexivity. }
  split.
  - intros E.
    assert (V : 1 <= y /\ 1 <= m <= 12 /\ ~ (y = 9999 /\ m = 12)).
    { destruct (month_pattern_parts _ P) as (ys & ms & S & Iy & Im & _).
      unfold year_month_of in YM. rewrite S in YM. injection YM as <- <-.
      apply summary_Ok in E as (flt & F & _).
      unfold date_filter in F. rewrite (given_nonempty _ NE), S in F.
      unfold unpack_year_month in F. rewrite Iy in F. simpl in F.
      rewrite Im in F. simpl in F.
      apply bind_Ok in F as (t1 & T1 & F).
      apply bind_Ok in F as (t2 & T2 & _).
      apply datetime_ymd_Ok in T1 as (? & ? & _).
      destruct (decimal_value ms =? 12) eqn:E12.
      - apply datetime_ymd_Ok in T2 as (? & _). lia.
      - apply Z.eqb_neq in E12. lia. }
    split; [exact V|].
    destruct V as (V1 & V2 & V3).
    rewrite (summary_month_equation M y m st P YM V1 V2 V3), B in E.
    apply http_guard_Ok in E. exact E.
  - intros ((V1 & V2 & V3) & E).
    rewrite (summary_month_equation M y m st P YM V1 V2 V3), B, E. reflexivity.
Qed.

Lemma summary_month_interval_witness :
  summary (Some "2025-01") scenario_store = Ok scenario_summary
  <->
  (1 <= 2025 /\ 1 <= 1 <= 12 /\ ~ (2025 = 9999 /\ 1 = 12)) /\
  aggregate
    (filter (dated_within (first_of_month 2025 1) (first_of_next_month 2025 1))
            (docs_of scenario_store "transaction"))
    (filter (fun b => value_eqb (doc_get "month" b) (VStr "2025-01"))
            (docs_of scenario_store "budget"))
  = Ok scenario_summary.
Proof.
  apply summary_month_interval; vm_compute; reflexivity.
Defined.

(** ** Storing a transaction *)

Lemma persisted_document_eq (txn : Transaction.t) (st : store) (d : doc) :
  persisted_document txn st = Some d ->
  d = ("_id", VOid (fresh_id (next_id st))) :: storage_dict txn.
Proof.
  unfold persisted_document, add_transaction, create_document.
  destruct (faults st) as [|[] later]; simpl.
  - rewrite last_last. congruence.
  - discriminate.
  - rewrite last_last. congruence.
Qed.

Lemma date_pattern_parts (t : string) :
  date_pattern t = true ->
  exists ys ms ds,
    PyStr.split "-" t = [ys; ms; ds] /\
    digits 4 ys = true /\ digits 2 ms = true /\ digits 2 ds = true.
Proof.
  unfold date_pattern. intros P.
  destruct (PyStr.split "-" t) as [|ys [|ms [|ds [|x rest]]]]; try discriminate P.
  apply andb_true_iff in P as [P Pd]. apply andb_true_iff in P as [Py Pm].
  exists ys, ms, ds. repeat split; assumption.
Qed.

(** [strptime] accepts a text that matches the date pattern only when
    it names a day of the calendar, and then gives that day at midnight. *)
Lemma strptime_calendar (t ys ms ds : string) (dt : datetime) :
  date_pattern t = true ->
  PyStr.split "-" t = [ys; ms; ds] ->
  strptime_ymd t = Ok dt ->
  is_calendar_date t = true /\
  dt = mkDatetime (decimal_value ys) (decimal_value ms) (decimal_value ds) 0 0 0 0.
Proof.
  intros P S T.
  destruct (date_pattern_parts _ P) as (ys' & ms' & ds' & S' & Py & Pm & Pd).
  rewrite S in S'. injection S' as <- <- <-.
  destruct small_widths as [W2 W4].
  unfold strptime_ymd in T. rewrite S in T.
  destruct (Unicode.code_points ys); [|discriminate T].
  destruct (Unicode.code_points ms); [|discriminate T].
  destruct (Unicode.code_points ds); [|discriminate T].
  destruct (year_token _ && month_token _ && day_token _); [|discriminate T].
  rewrite (py_int_digits 4 ys Py W4), (py_int_digits 2 ms Pm W2),
    (py_int_digits 2 ds Pd W2) in T.
  cbn [bind] in T. apply datetime_ymd_Ok in T as (Hy & Hm & Hd & ->).
  split; [|reflexivity].
  unfold is_calendar_date. rewrite S. cbv zeta.
  repeat (apply andb_true_iff; split); apply Z.leb_le; lia.
Qed.

(** *** Dates written in ASCII digits *)

Lemma date_pattern_ascii (t : string) :
  date_pattern t = true -> ascii_text t = true ->
  exists ys ms ds,
    PyStr.split "-" t = [ys; ms; ds] /\
    (PyStr.all_digits ys = true /\ String.length ys = 4%nat) /\
    (PyStr.all_digits ms = true /\ String.length ms = 2%nat) /\
    (PyStr.all_digits ds = true /\ String.length ds = 2%nat).
Proof.
  intros P A.
  destruct (date_pattern_parts _ P) as (ys & ms & ds & S & Py & Pm & Pd).
  pose proof (split_from_ascii "-" t "" eq_refl A) as F.
  fold (PyStr.split "-" t) in F. rewrite S in F.
  inversion F as [|? ? Ay F1]; subst. inversion F1 as [|? ? Am F2]; subst.
  inversion F2 as [|? ? Ad _]; subst.
  rewrite (digits_ascii _ _ Ay) in Py. rewrite (digits_ascii _ _ Am) in Pm.
  rewrite (digits_ascii _ _ Ad) in Pd.
  apply andb_true_iff in Py as [Ly Dy], Pm as [Lm Dm], Pd as [Ld Dd].
  apply Nat.eqb_eq in Ly, Lm, Ld.
  exists ys, ms, ds. repeat split; assumption.
Qed.

Lemma py_int_ascii_digits (n : nat) (s : string) :
  PyStr.all_digits s = true -> String.length s = n ->
  (1 <= n <= max_str_digits)%nat ->
  py_int s = Ok (PyStr.digits_val 0 s).
Proof.
  intros E L B. rewrite <- (decimal_value_ascii _ E).
  apply (py_int_digits n); [|exact B].
  rewrite (digits_ascii _ _ (all_digits_ascii _ E)), E, L, Nat.eqb_refl. reflexivity.
Qed.

Lemma year_token_digits (ys : string) :
  PyStr.all_digits ys = true -> String.length ys = 4%nat ->
  year_token (map N_of_ascii (list_ascii_of_string ys)) = true.
Proof.
  intros E L. unfold year_token.
  rewrite length_map, length_list_ascii, L.
  rewrite (forallb_decimal_ascii _ (all_digits_ascii _ E)), E. reflexivity.
Qed.

(** On a text of two ASCII digits the [%m] field accepts the months 1 to
    12 and the [%d] field the days 1 to 31. *)
Lemma month_token_digits (ms : string) :
  PyStr.all_digits ms = true -> String.length ms = 2%nat ->
  month_token (map N_of_ascii (list_ascii_of_string ms))
  = (1 <=? PyStr.digits_val 0 ms) && (PyStr.digits_val 0 ms <=? 12).
Proof.
  destruct ms as [|a [|b [|c ms]]]; try discriminate.
  intros E _. cbn [PyStr.all_digits] in E.
  apply andb_true_iff in E as [Ea E]. apply andb_true_iff in E as [Eb _].
  digit_cases a Ea; digit_cases b Eb; reflexivity.
Qed.

Lemma day_token_digits (ds : string) :
  PyStr.all_digits ds = true -> String.length ds = 2%nat ->
  day_token (map N_of_ascii (list_ascii_of_string ds))
  = (1 <=? PyStr.digits_val 0 ds) && (PyStr.digits_val 0 ds <=? 31).
Proof.
  destruct ds as [|a [|b [|c ds]]]; try discriminate.
  intros E _. cbn [PyStr.all_digits] in E.
  apply andb_true_iff in E as [Ea E]. apply andb_true_iff in E as [Eb _].
  digit_cases a Ea; digit_cases b Eb; reflexivity.
Qed.

Lemma days_in_month_le_31 (y m : Z) : days_in_month y m <= 31.
Proof.
  unfold days_in_month.
  destruct (m =? 2); [destruct (is_leap y); lia|].
  destruct ((m =? 4) || (m =? 6) || (m =? 9) || (m =? 11)); lia.
Qed.

(** [strptime] on a text in ASCII digits that matches the date pattern. *)
Lemma strptime_on_pattern (t ys ms ds : string) :
  PyStr.split "-" t = [ys; ms; ds] ->
  PyStr.all_digits ys = true -> String.length ys = 4%nat ->
  PyStr.all_digits ms = true -> String.length ms = 2%nat ->
  PyStr.all_digits ds = true -> String.length ds = 2%nat ->
  if is_calendar_date t
  then strptime_ymd t
       = Ok (mkDatetime (PyStr.digits_val 0 ys) (PyStr.digits_val 0 ms)
                        (PyStr.digits_val 0 ds) 0 0 0 0)
  else exists e, strptime_ymd t = Raise e.
Proof.
  intros S Dy Ly Dm Lm Dd Ld.
  destruct small_widths as [W2 W4].
  unfold is_calendar_date, strptime_ymd. rewrite S.
  rewrite !decimal_value_ascii by assumption.
  rewrite !code_points_ascii by (apply all_digits_ascii; assumption).
  rewrite (year_token_digits _ Dy Ly), (month_token_digits _ Dm Lm),
    (day_token_digits _ Dd Ld).
  rewrite (py_int_ascii_digits 4 ys Dy Ly W4), (py_int_ascii_digits 2 ms Dm Lm W2),
    (py_int_ascii_digits 2 ds Dd Ld W2).
  pose proof (digits_val_4 _ Dy Ly) as By.
  set (y := PyStr.digits_val 0 ys) in *.
  set (m := PyStr.digits_val 0 ms) in *.
  set (d := PyStr.digits_val 0 ds) in *.
  pose proof (days_in_month_le_31 y m) as B31.
  cbn [andb bind]. unfold datetime_ymd.
  destruct (1 <=? y) eqn:E1; cbn [andb negb].
  - replace (y <=? 9999) with true by (symmetry; apply Z.leb_le; lia).
    destruct ((1 <=? m) && (m <=? 12)) eqn:E2; cbn [andb negb bind]; [|eauto].
    destruct (1 <=? d) eqn:E3; cbn [andb negb bind].
    + destruct (d <=? days_in_month y m) eqn:E4; cbn [negb].
      * replace (d <=? 31) with true
          by (symmetry; apply Z.leb_le; apply Z.leb_le in E4; lia).
        reflexivity.
      * destruct (d <=? 31); cbn [andb negb bind]; eauto.
    + eauto.
  - destruct ((1 <=? m) && (m <=? 12) && ((1 <=? d) && (d <=? 31)));
      cbn [andb negb bind]; eauto.
Qed.

(** C5, as amended: an accepted transaction whose [date], written in
    ASCII digits, names a day of the calendar is persisted with [date]
    the timestamp at midnight of that day; one whose [date] names no day
    of the calendar (it matches the pattern all the same) is persisted
    with the text unchanged; and every accepted transaction is persisted
    with one or the other. *)
Theorem stored_date_normalized (txn : Transaction.t) (st : store) (d : doc) :
  Transaction.valid txn = true ->
  persisted_document txn st = Some d ->
  (ascii_text (Transaction.date txn) = true ->
   is_calendar_date (Transaction.date txn) = true ->
   stored_at_midnight (Transaction.date txn) d)
  /\
  (is_calendar_date (Transaction.date txn) = false ->
   PyDict.get "date" d = Some (VStr (Transaction.date txn)))
  /\
  (stored_at_midnight (Transaction.date txn) d \/
   PyDict.get "date" d = Some (VStr (Transaction.date txn))).
Proof.
  intros V Pd. apply persisted_document_eq in Pd. subst d.
  unfold Transaction.valid in V. apply andb_true_iff in V as [_ V].
  destruct (date_pattern_parts _ V) as (ys & ms & ds & S & _).
  assert (G : forall v,
             PyDict.get "date"
               (("_id", VOid (fresh_id (next_id st)))
                  :: PyDict.set "date" v (Transaction.model_dump txn)) = Some v).
  { intros v. reflexivity. }
  unfold storage_dict.
  destruct (strptime_ymd (Transaction.date txn)) as [dt|e] eqn:T.
  - destruct (strptime_calendar _ _ _ _ _ V S T) as [C ->].
    assert (M : stored_at_midnight (Transaction.date txn)
                  (("_id", VOid (fresh_id (next_id st)))
                     :: PyDict.set "date"
                          (VDate (mkDatetime (decimal_value ys) (decimal_value ms)
                                             (decimal_value ds) 0 0 0 0))
                          (Transaction.model_dump txn))).
    { exists ys, ms, ds. split; [exact S | apply G]. }
    split; [intros _ _; exact M|]. split; [congruence | left; exact M].
  - split; [|split; [reflexivity | right; reflexivity]].
    intros A C. exfalso.
    destruct (date_pattern_ascii _ V A)
      as (ys' & ms' & ds' & S' & [Dy Ly] & [Dm Lm] & [Dd Ld]).
    pose proof (strptime_on_pattern _ _ _ _ S' Dy Ly Dm Lm Dd Ld) as Q.
    rewrite C in Q. congruence.
Qed.

Lemma stored_date_normalized_witness :
  stored_at_midnight "2025-01-05"
    (last (docs_of (snd (add_transaction scenario_transaction empty_store))
                   "transaction") []).
Proof.
  refine (proj1 (stored_date_normalized scenario_transaction empty_store _ _ _) _ _);
    vm_compute; reflexivity.
Defined.

(** C5, as stated, fails: the transaction dated "2025-02-30" is accepted,
    and the document persisted for it keeps the text as its [date]; so
    does the one dated 5 January 2025 in Arabic-Indic digits, which the
    pattern accepts and which names a day of the calendar. *)
Lemma stored_date_not_normalized :
  (Transaction.valid impossible_date_transaction = true /\
   exists d,
     persisted_document impossible_date_transaction empty_store = Some d /\
     PyDict.get "date" d = Some (VStr "2025-02-30") /\
     ~ stored_at_midnight "2025-02-30" d)
  /\
  (Transaction.valid arabic_indic_date_transaction = true /\
   is_calendar_date "٢٠٢٥-٠١-٠٥" = true /\
   exists d,
     persisted_document arabic_indic_date_transaction empty_store = Some d /\
     PyDict.get "date" d = Some (VStr "٢٠٢٥-٠١-٠٥") /\
     ~ stored_at_midnight "٢٠٢٥-٠١-٠٥" d).
Proof.
  split.
  - split; [vm_compute; reflexivity|].
    eexists. split; [vm_compute; reflexivity|].
    split; [reflexivity|].
    intros (ys & ms & ds & _ & G). discriminate G.
  - split; [vm_compute; reflexivity|]. split; [vm_compute; reflexivity|].
    eexists. split; [vm_compute; reflexivity|].
    split; [reflexivity|].
    intros (ys & ms & ds & _ & G). discriminate G.
Qed.

(** ** The chat endpoint *)

Section Chat.
Variable number_str : PyNum.number -> string.

(** C7: whatever the outcome of the two inserts of the chat messages,
    POST /api/chat returns the response it returns when both succeed. *)
Theorem chat_reply_ignores_log_failure (req : ChatRequest.t) (st : store)
    (fs : list bool) :
  fst (chat number_str req (with_faults fs st))
  = fst (chat number_str req (with_faults [] st)).
Proof.
  unfold chat.
  change (summary (ChatRequest.month req) (with_faults fs st))
    with (summary (ChatRequest.month req) (with_faults [] st)).
  destruct (summary (ChatRequest.month req) (with_faults [] st)) as [s|e];
    simpl; [|reflexivity].
  match goal with
  | |- context [bind ?r _] => destruct r as [reply|e]; reflexivity
  end.
Qed.

(** What [chat] returns once the summary is computed. *)
Lemma chat_after_summary (req : ChatRequest.t) (st : store) (s : summary_t) :
  summary (ChatRequest.month req) st = Ok s ->
  fst (chat number_str req st)
  = http_guard
      (reply <- respond number_str
                  (classify (PyStr.lower (ChatRequest.message req)))
                  (ChatRequest.month req) s ;;
       Ok (mkChatResponse reply s)).
Proof.
  intros E. unfold chat, classify, respond. rewrite E. simpl.
  destruct (PyStr.contains "spend" (PyStr.lower (ChatRequest.message req))
            || PyStr.contains "expense" (PyStr.lower (ChatRequest.message req))).
  - destruct (spending_reply _ _ _); reflexivity.
  - destruct (PyStr.contains "income" _); [reflexivity|].
    destruct (PyStr.contains "budget" _); [|reflexivity].
    destruct (budget_reply _ _); reflexivity.
Qed.

(** C4: over the lower-cased message the first matching rule decides
    the reply, "spend" or "expense" before "income" before "budget",
    and the help text when none matches; a message with both "income"
    and "spend" gets the spending reply, and "hello" gets the help
    text. *)
Theorem chat_first_match_wins (st : store) :
  (forall req s,
      summary (ChatRequest.month req) st = Ok s ->
      fst (chat number_str req st)
      = http_guard
          (reply <- respond number_str
                      (classify (PyStr.lower (ChatRequest.message req)))
                      (ChatRequest.month req) s ;;
           Ok (mkChatResponse reply s)))
  /\
  (forall text month s,
      summary month st = Ok s ->
      PyStr.contains "income" (PyStr.lower text) = true ->
      PyStr.contains "spend" (PyStr.lower text) = true ->
      fst (chat number_str (ChatRequest.mk text month) st)
      = http_guard
          (reply <- spending_reply number_str month s ;;
           Ok (mkChatResponse reply s)))
  /\
  (forall s,
      summary None st = Ok s ->
      fst (chat number_str (ChatRequest.mk "hello" None) st)
      = Ok (mkChatResponse help_text s)).
Proof.
  split; [|split].
  - intros req s E. apply chat_after_summary. exact E.
  - intros text month s E _ Hs.
    rewrite (chat_after_summary (ChatRequest.mk text month) st s E).
    unfold classify. simpl. rewrite Hs. reflexivity.
  - intros s E.
    rewrite (chat_after_summary (ChatRequest.mk "hello" None) st s E).
    reflexivity.
Qed.

End Chat.

Lemma chat_first_match_wins_witness :
  fst (chat no_number_str (ChatRequest.mk "My income, and what I SPEND" (Some "2025-01"))
         scenario_store)
  = http_guard
      (reply <- spending_reply no_number_str (Some "2025-01") scenario_summary ;;
       Ok (mkChatResponse reply scenario_summary))
  /\
  fst (chat no_number_str (ChatRequest.mk "hello" None) scenario_store)
  = Ok (mkChatResponse help_text scenario_summary).
Proof.
  destruct (chat_first_match_wins no_number_str scenario_store) as (_ & B & C).
  split.
  - apply B; vm_compute; reflexivity.
  - apply C; vm_compute; reflexivity.
Defined.

(** ** The budget reply *)

Section BudgetReply.
Variable number_str : PyNum.number -> string.

Lemma budget_lines_total (cats : list (value * PyNum.number))
    (bs : list (value * value)) :
  (forall c lim, In (c, lim) bs -> exists x, lim = VNum x) ->
  exists more, budget_lines number_str cats bs = Ok more.
Proof.
  induction bs as [|[c lim] bs IH]; intros N; simpl; [eauto|].
  destruct (N c lim (or_introl eq_refl)) as [x ->]. simpl.
  destruct IH as [more ->]; [intros; eapply N; right; eassumption|].
  simpl. eauto.
Qed.

Lemma budget_lines_In (cats : list (value * PyNum.number)) (bs : list (value * value))
    (cat : value) (l : PyNum.number) :
  (forall c lim, In (c, lim) bs -> exists x, lim = VNum x) ->
  In (cat, VNum l) bs ->
  exists before after,
    budget_lines number_str cats bs
    = Ok (before
          ++ budget_line number_str cat
               (PyDict.get_default cat (PyNum.of_Z 0) cats) l
          :: after).
Proof.
  induction bs as [|[c lim] bs IH]; intros N I; [contradiction|].
  assert (Nbs : forall c' lim', In (c', lim') bs -> exists x, lim' = VNum x)
    by (intros; eapply N; right; eassumption).
  destruct (N c lim (or_introl eq_refl)) as [x ->]. simpl.
  destruct I as [I | I].
  - injection I as -> ->.
    destruct (budget_lines_total cats bs Nbs) as [more ->].
    simpl. exists [], more. reflexivity.
  - destruct (IH Nbs I) as (before & after & ->). simpl.
    exists (budget_line number_str c
              (PyDict.get_default c (PyNum.of_Z 0) cats) x :: before), after.
    reflexivity.
Qed.

(** C1, as amended: when the January 2025 summary has 50 spent on
    groceries and a groceries limit of 40 (and every limit is a number),
    the reply to "how is my budget?" has, after the heading "Budgets:",
    the line [- groceries: $50.00 / $40.00 (over)]; a budget line is
    [- <category>: $<spent> / $<limit> (over|under)], with "over" exactly
    when spent strictly exceeds the limit. *)
Theorem budget_reply_line (st : store) (s : summary_t) :
  summary (Some "2025-01") st = Ok s ->
  PyDict.get_default (VStr "groceries") (PyNum.of_Z 0) (categories s) = PyNum.of_Z 50 ->
  In (VStr "groceries", VNum (PyNum.of_Z 40)) (budgets s) ->
  (forall c lim, In (c, lim) (budgets s) -> exists x, lim = VNum x) ->
  (exists before after,
      fst (chat number_str budget_question st)
      = Ok (mkChatResponse
              (PyStr.join PyStr.nl
                 ("Budgets:"%string
                  :: before ++ "- groceries: $50.00 / $40.00 (over)"%string :: after))
              s))
  /\
  (forall cat spent lim,
      budget_line number_str cat spent lim
      = ("- " ++ py_str number_str cat ++ ": $" ++ PyNum.format_2f spent
         ++ " / $" ++ PyNum.format_2f lim
         ++ (if Qclt_le_dec lim spent then " (over)" else " (under)"))%string).
Proof.
  intros E G I N. split.
  - rewrite (chat_after_summary number_str budget_question st s E).
    change (classify (PyStr.lower (ChatRequest.message budget_question)))
      with BudgetQuery.
    unfold respond, budget_reply.
    destruct (budget_lines_In (categories s) (budgets s) _ _ N I)
      as (before & after & ->).
    rewrite G. exists before, after. simpl.
    replace (Nat.ltb 1 (S (List.length (before ++ _ :: after)))) with true.
    + reflexivity.
    + symmetry. apply Nat.ltb_lt. rewrite length_app. simpl. lia.
  - intros cat spent lim. unfold budget_line, PyNum.gtb.
    repeat f_equal.
    destruct (Qclt_le_dec lim spent) as [L | L].
    + unfold Qclt in L. apply Qgt_alt in L. rewrite L. reflexivity.
    + unfold Qcle in L. apply Qle_alt in L.
      destruct (this spent ?= this lim)%Q eqn:C; try reflexivity. contradiction.
Qed.

End BudgetReply.

Lemma budget_reply_line_witness :
  exists before after,
    fst (chat no_number_str budget_question scenario_store)
    = Ok (mkChatResponse
            (PyStr.join PyStr.nl
               ("Budgets:"%string
                :: before ++ "- groceries: $50.00 / $40.00 (over)"%string :: after))
            scenario_summary).
Proof.
  refine (proj1 (budget_reply_line no_number_str scenario_store scenario_summary _ _ _ _)).
  - vm_compute; reflexivity.
  - vm_compute; reflexivity.
  - left. reflexivity.
  - intros c lim [[= <- <-] | []]. eexists. reflexivity.
Defined.

(** C1, as stated, fails: in the store of the scenario the reply is the
    heading and the line [- groceries: $50.00 / $40.00 (over)], which does
    not contain the text [groceries: 50.00/40.00 (over)]; and in a store
    that contains the transaction and the budget beside a second grocery
    expense the line reads $60.00. *)
Lemma budget_reply_not_as_claimed :
  (exists r,
      fst (chat no_number_str budget_question scenario_store) = Ok r /\
      reply r = PyStr.join PyStr.nl
                  ["Budgets:"; "- groceries: $50.00 / $40.00 (over)"]%string /\
      PyStr.contains "groceries: 50.00/40.00 (over)" (reply r) = false)
  /\
  (exists r,
      fst (chat no_number_str budget_question busier_store) = Ok r /\
      reply r = PyStr.join PyStr.nl
                  ["Budgets:"; "- groceries: $60.00 / $40.00 (over)"]%string /\
      PyStr.contains "50.00" (reply r) = false).
Proof.
  split; eexists; (split; [vm_compute; reflexivity|]); split; reflexivity.
Qed.

(** ** The model on concrete inputs *)

Example format_2f_examples :
  PyNum.format_2f (PyNum.of_Z 50) = "50.00"%string /\
  PyNum.format_2f (Q2Qc (1 # 8)) = "0.12"%string /\
  PyNum.format_2f (Q2Qc (3 # 8)) = "0.38"%string /\
  PyNum.format_2f (Q2Qc (123456 # 1000)) = "123.46"%string /\
  PyNum.format_2f (Q2Qc (-1 # 1000)) = "-0.00"%string.
Proof. repeat split. Qed.

Example split_examples :
  PyStr.split "-" "2025-01" = ["2025"; "01"]%string /\
  PyStr.split "-" "" = [""]%string /\
  PyStr.split "-" "-a-" = [""; "a"; ""]%string.
Proof. repeat split. Qed.

Example py_int_examples :
  py_int " 2025 " = Ok 2025 /\ py_int "+1_0" = Ok 10 /\ py_int "007" = Ok 7 /\
  py_int "" = Raise (InvalidLiteral "") /\ py_int "1__0" = Raise (InvalidLiteral "1__0") /\
  py_int "abc" = Raise (InvalidLiteral "abc").
Proof. repeat split. Qed.

(** [int] reads the decimal digits and the spaces of Unicode, not the
    separators U+001C to U+001F, and no more than 4300 digits. *)
Example py_int_unicode_examples :
  py_int "٢٠٢٥" = Ok 2025 /\
  py_int (String (ascii_of_nat 194) (String (ascii_of_nat 160) "01")) = Ok 1 /\
  py_int (String (ascii_of_nat 11) "01") = Ok 1 /\
  py_int ("01" ++ String (ascii_of_nat 31) "")
  = Raise (InvalidLiteral ("01" ++ String (ascii_of_nat 31) "")) /\
  py_int "é" = Raise (InvalidLiteral "é") /\
  py_int (string_of_list_ascii (repeat "1"%char 4301)) = Raise (TooManyDigits 4301) /\
  (exists z, py_int (string_of_list_ascii (repeat "1"%char 4300)) = Ok z).
Proof.
  repeat (split; [vm_compute; reflexivity|]).
  eexists. vm_compute. reflexivity.
Qed.

Example strptime_examples :
  strptime_ymd "2024-02-29" = Ok (mkDatetime 2024 2 29 0 0 0 0) /\
  strptime_ymd "2025-02-29" = Raise (DateOutOfRange 2025 2 29) /\
  strptime_ymd "2025-13-01" = Raise (InvalidLiteral "2025-13-01") /\
  strptime_ymd "0000-01-01" = Raise (DateOutOfRange 0 1 1).
Proof. repeat split. Qed.

(** The year field of [strptime] takes the decimal digits of any script,
    the month field ASCII digits only, the day field another script in
    its second digit after "1" or "2". *)
Example strptime_unicode_examples :
  strptime_ymd "٢٠٢٥-01-05" = Ok (mkDatetime 2025 1 5 0 0 0 0) /\
  strptime_ymd "2025-01-1٥" = Ok (mkDatetime 2025 1 15 0 0 0 0) /\
  strptime_ymd "2025-01-3٠" = Raise (InvalidLiteral "2025-01-3٠") /\
  strptime_ymd "2025-٠1-05" = Raise (InvalidLiteral "2025-٠1-05") /\
  strptime_ymd "٢٠٢٥-٠١-٠٥" = Raise (InvalidLiteral "٢٠٢٥-٠١-٠٥") /\
  date_pattern "٢٠٢٥-٠١-٠٥" = true /\ date_pattern "2025-1-05" = false.
Proof. repeat (split; [vm_compute; reflexivity|]). vm_compute; reflexivity. Qed.

Example december_rolls_over :
  first_of_next_month 2025 12 = mkDatetime 2026 1 1 0 0 0 0 /\
  summary (Some "9999-12") scenario_store
  = Raise (HTTPException 500 (DateOutOfRange 10000 1 1)).
Proof. split; reflexivity. Qed.

Example scenario_summary_computed :
  summary (Some "2025-01") scenario_store = Ok scenario_summary /\
  summary (Some "2025-02") scenario_store
  = Ok (mkSummary (PyNum.of_Z 0) (PyNum.of_Z 0) (PyNum.of_Z 0) [] []).
Proof. split; vm_compute; reflexivity. Qed.

Example chat_log_failure_swallowed :
  docs_of (snd (chat no_number_str budget_question (with_faults [true] scenario_store)))
          "chatmessage" = [] /\
  List.length (docs_of (snd (chat no_number_str budget_question scenario_store))
                       "chatmessage") = 2%nat /\
  fst (chat no_number_str budget_question (with_faults [true] scenario_store))
  = fst (chat no_number_str budget_question scenario_store).
Proof. repeat split. Qed.

(** * Further properties of the endpoints *)

(** ** The summary *)

Lemma summary_eq (month : option string) (st : store) (flt : query) :
  date_filter month = Ok flt ->
  summary month st
  = http_guard
      (aggregate (get_documents st "transaction" flt None)
                 (get_documents st "budget" (month_filter month) None)).
Proof. intros E. unfold summary. rewrite E. reflexivity. Qed.

Lemma filter_all {A} (l : list A) : filter (fun _ => true) l = l.
Proof. induction l as [|a l IH]; simpl; [reflexivity | rewrite IH; reflexivity]. Qed.

(** X1: without a month, and with the empty text for a month, the
    summary is the one of every stored transaction and every stored
    budget. *)
Theorem summary_without_month (st : store) :
  summary None st
  = http_guard (aggregate (docs_of st "transaction") (docs_of st "budget"))
  /\ summary (Some "") st = summary None st.
Proof.
  split; [|reflexivity].
  unfold summary, date_filter, month_filter, get_documents, matches. simpl.
  rewrite !filter_all. reflexivity.
Qed.

Lemma sum_amounts_skip (ty : string) (pre post : list doc) (d : doc) (acc : PyNum.number) :
  has_type ty d = false ->
  sum_amounts ty (pre ++ d :: post) acc = sum_amounts ty (pre ++ post) acc.
Proof.
  intros T. rewrite !sum_amounts_app.
  destruct (sum_amounts ty pre acc); simpl; [|reflexivity].
  unfold has_type in T. rewrite T. reflexivity.
Qed.

Lemma by_category_skip (pre post : list doc) (d : doc) (bc : list (value * PyNum.number)) :
  has_type "expense" d = false ->
  by_category (pre ++ d :: post) bc = by_category (pre ++ post) bc.
Proof.
  intros T. rewrite !by_category_app.
  destruct (by_category pre bc); simpl; [|reflexivity].
  unfold has_type in T. rewrite T. reflexivity.
Qed.

(** X3: a fetched document whose [type] is neither "income" nor
    "expense" (or is missing) changes nothing in the summary, whatever
    its other fields hold, an amount that is not a number included. *)
Theorem untyped_documents_ignored (pre post budget_docs : list doc) (d : doc) :
  doc_get "type" d <> VStr "income" ->
  doc_get "type" d <> VStr "expense" ->
  aggregate (pre ++ d :: post) budget_docs = aggregate (pre ++ post) budget_docs.
Proof.
  intros Ni Ne. apply value_eqb_neq in Ni, Ne.
  unfold aggregate.
  rewrite (sum_amounts_skip "income" pre post d _ Ni).
  rewrite (sum_amounts_skip "expense" pre post d _ Ne).
  rewrite (by_category_skip pre post d _ Ne). reflexivity.
Qed.

Lemma untyped_documents_ignored_witness :
  aggregate (docs_of scenario_store "transaction" ++ transfer_note :: [])
            (docs_of scenario_store "budget")
  = aggregate (docs_of scenario_store "transaction" ++ [])
              (docs_of scenario_store "budget").
Proof.
  apply untyped_documents_ignored; discriminate.
Defined.

Lemma sum_amounts_numeric (ty : string) (docs : list doc) :
  forall acc e,
    sum_amounts ty docs acc = Ok e ->
    forall d, In d docs -> has_type ty d = true ->
              exists x, PyDict.get_default "amount" (VNum (PyNum.of_Z 0)) d = VNum x.
Proof.
  induction docs as [|d0 rest IH]; intros acc e E d I T; [contradiction|].
  simpl in E. destruct I as [<- | I].
  - unfold has_type in T. rewrite T in E.
    apply bind_Ok in E as (x & Hx & _). apply as_number_Ok in Hx. eauto.
  - destruct (value_eqb (doc_get "type" d0) (VStr ty)).
    + apply bind_Ok in E as (x & _ & E). eapply IH; eassumption.
    + eapply IH; eassumption.
Qed.

(** X4: a fetched transaction of type "income" or "expense" whose
    [amount] is present and is not a number makes GET /api/summary answer
    the server error of status 500. *)
Theorem bad_amount_is_server_error (month : option string) (st : store)
    (flt : query) (d : doc) (v : value) :
  date_filter month = Ok flt ->
  In d (get_documents st "transaction" flt None) ->
  doc_get "type" d = VStr "income" \/ doc_get "type" d = VStr "expense" ->
  PyDict.get "amount" d = Some v ->
  (forall x, v <> VNum x) ->
  exists e, summary month st = Raise (HTTPException 500 e).
Proof.
  intros F I T A N. rewrite (summary_eq _ _ _ F).
  destruct (aggregate _ _) as [s|e] eqn:E; simpl; [|eauto].
  exfalso.
  apply aggregate_Ok in E as (inc & exp & bc & bs & Hi & He & _).
  assert (X : exists x, PyDict.get_default "amount" (VNum (PyNum.of_Z 0)) d = VNum x).
  { destruct T as [T | T].
    - eapply (sum_amounts_numeric _ _ _ _ Hi d I).
      unfold has_type. rewrite T. reflexivity.
    - eapply (sum_amounts_numeric _ _ _ _ He d I).
      unfold has_type. rewrite T. reflexivity. }
  destruct X as [x X]. unfold PyDict.get_default in X. rewrite A in X.
  exact (N x X).
Qed.

Lemma bad_amount_is_server_error_witness :
  exists e,
    summary None (with_docs "transaction" [garbled_expense] empty_store)
    = Raise (HTTPException 500 e).
Proof.
  apply (bad_amount_is_server_error None _ [] garbled_expense (VStr "12")).
  - reflexivity.
  - left. reflexivity.
  - right. reflexivity.
  - reflexivity.
  - discriminate.
Defined.

Lemma budget_limits_Raise (budget_docs : list doc) :
  forall bs e,
    budget_limits budget_docs bs = Raise e ->
    e = KeyError "limit" \/ e = KeyError "category".
Proof.
  induction budget_docs as [|b rest IH]; intros bs e E; simpl in E; [discriminate|].
  unfold getitem in E.
  destruct (PyDict.get "limit" b); simpl in E; [|left; congruence].
  destruct (PyDict.get "category" b); simpl in E; [|right; congruence].
  eapply IH. exact E.
Qed.

(** X5: a fetched budget that lacks its [limit] or its [category] makes
    GET /api/summary answer the server error of status 500; when the
    totals of the transactions compute, the error is the [KeyError] of
    one of the two fields. *)
Theorem incomplete_budget_is_server_error (month : option string) (st : store)
    (flt : query) (b : doc) :
  date_filter month = Ok flt ->
  In b (get_documents st "budget" (month_filter month) None) ->
  PyDict.get "limit" b = None \/ PyDict.get "category" b = None ->
  (exists e, summary month st = Raise (HTTPException 500 e))
  /\
  (forall s0,
      aggregate (get_documents st "transaction" flt None) [] = Ok s0 ->
      exists k, (k = "limit"%string \/ k = "category"%string) /\
                summary month st = Raise (HTTPException 500 (KeyError k))).
Proof.
  intros F I M. rewrite (summary_eq _ _ _ F).
  assert (NB : forall bs, budget_limits
                            (get_documents st "budget" (month_filter month) None) []
                          <> Ok bs).
  { intros bs E. pose proof (budget_limits_fields _ _ _ E) as W.
    rewrite Forall_forall in W. destruct (W b I) as (k & l & Gk & Gl).
    destruct M; congruence. }
  split.
  - destruct (aggregate _ _) as [s|e] eqn:E; simpl; [|eauto].
    apply aggregate_Ok in E as (? & ? & ? & bs & _ & _ & _ & Hb & _).
    exfalso. exact (NB bs Hb).
  - intros s0 E0.
    apply aggregate_Ok in E0 as (inc & exp & bc & bs0 & Hi & He & Hc & _ & _).
    unfold aggregate. rewrite Hi, He, Hc. simpl.
    destruct (budget_limits _ _) as [bs|e] eqn:Hb; [exfalso; exact (NB bs eq_refl)|].
    simpl. apply budget_limits_Raise in Hb.
    destruct Hb as [-> | ->]; eexists; (split; [|reflexivity]); tauto.
Qed.

Lemma incomplete_budget_is_server_error_witness :
  (exists e,
      summary (Some "2025-01") (with_docs "budget" [limitless_budget] scenario_store)
      = Raise (HTTPException 500 e))
  /\
  (forall s0,
      aggregate
        (get_documents (with_docs "budget" [limitless_budget] scenario_store)
           "transaction"
           [("date", Between (VDate (first_of_month 2025 1))
                             (VDate (first_of_next_month 2025 1)))] None) [] = Ok s0 ->
      exists k, (k = "limit"%string \/ k = "category"%string) /\
                summary (Some "2025-01")
                  (with_docs "budget" [limitless_budget] scenario_store)
                = Raise (HTTPException 500 (KeyError k))).
Proof.
  apply (incomplete_budget_is_server_error (Some "2025-01") _ _ limitless_budget).
  - vm_compute; reflexivity.
  - left. reflexivity.
  - left. reflexivity.
Defined.

(** ** The order of the keys *)

Lemma value_eqb_sym (a b : value) : value_eqb a b = value_eqb b a.
Proof.
  destruct (value_eqb a b) eqn:E.
  - apply value_eqb_eq in E. subst. symmetry. apply value_eqb_refl.
  - apply value_eqb_neq in E. symmetry. apply value_eqb_neq. congruence.
Qed.

Lemma keys_set {V} (k : value) (v : V) (d : list (value * V)) :
  PyDict.keys (PyDict.set k v d)
  = if existsb (value_eqb k) (PyDict.keys d) then PyDict.keys d
    else PyDict.keys d ++ [k].
Proof.
  unfold PyDict.keys. induction d as [|[k' v'] d IH]; simpl; [reflexivity|].
  unfold keqb, value_key at 1. rewrite (value_eqb_sym k k').
  destruct (value_eqb k' k); simpl; [reflexivity|].
  rewrite IH. destruct (existsb (value_eqb k) (map fst d)); reflexivity.
Qed.

Lemma by_category_keys (docs : list doc) :
  forall bc r,
    by_category docs bc = Ok r ->
    PyDict.keys r
    = PyDict.keys bc
      ++ first_seen (PyDict.keys bc)
           (map category_of (filter (has_type "expense") docs)).
Proof.
  induction docs as [|d rest IH]; intros bc r E; simpl in E.
  - injection E as <-. simpl. rewrite app_nil_r. reflexivity.
  - cbn [filter].
    destruct (has_type "expense" d) eqn:T; unfold has_type in T; rewrite T in E.
    + apply bind_Ok in E as (x & _ & E). rewrite (IH _ _ E), keys_set.
      cbn [map first_seen]. fold (category_of d).
      destruct (existsb (value_eqb (category_of d)) (PyDict.keys bc));
        [reflexivity|].
      rewrite <- app_assoc. reflexivity.
    + apply IH. exact E.
Qed.

Lemma budget_limits_keys (budget_docs : list doc) :
  forall bs r,
    budget_limits budget_docs bs = Ok r ->
    PyDict.keys r
    = PyDict.keys bs
      ++ first_seen (PyDict.keys bs) (map (doc_get "category") budget_docs).
Proof.
  induction budget_docs as [|b rest IH]; intros bs r E; simpl in E.
  - injection E as <-. simpl. rewrite app_nil_r. reflexivity.
  - cbn [map first_seen].
    apply bind_Ok in E as (lim & _ & E).
    apply bind_Ok in E as (cat & Ec & E).
    unfold getitem in Ec.
    destruct (PyDict.get "category" b) as [c|] eqn:G; [|discriminate].
    injection Ec as ->.
    assert (C : doc_get "category" b = cat)
      by (unfold doc_get, PyDict.get_default; rewrite G; reflexivity).
    rewrite (IH _ _ E), keys_set, C.
    destruct (existsb (value_eqb cat) (PyDict.keys bs)); [reflexivity|].
    rewrite <- app_assoc. reflexivity.
Qed.

(** X7: the keys of the [categories] mapping of a summary are the
    categories of the selected expenses ("Other" for an expense without
    one), each once, in the order of their first appearance; the keys of
    the [budgets] mapping are likewise the categories of the fetched
    budgets.  This is the order in which the budget reply lists its lines
    and the top category breaks its ties. *)
Theorem summary_key_order (month : option string) (st : store) (s : summary_t) :
  summary month st = Ok s ->
  exists flt,
    date_filter month = Ok flt /\
    PyDict.keys (categories s)
    = first_seen []
        (map category_of
           (filter (has_type "expense") (get_documents st "transaction" flt None)))
    /\
    PyDict.keys (budgets s)
    = first_seen []
        (map (doc_get "category")
           (get_documents st "budget" (month_filter month) None)).
Proof.
  intros E. apply summary_Ok in E as (flt & F & E). exists flt. split; [exact F|].
  apply aggregate_Ok in E as (inc & exp & bc & bs & _ & _ & Hc & Hb & ->).
  simpl. split.
  - exact (by_category_keys _ _ _ Hc).
  - exact (budget_limits_keys _ _ _ Hb).
Qed.

Lemma summary_key_order_witness :
  exists flt,
    date_filter None = Ok flt /\
    PyDict.keys (categories raised_summary)
    = first_seen []
        (map category_of
           (filter (has_type "expense")
                   (get_documents raised_store "transaction" flt None)))
    /\
    PyDict.keys (budgets raised_summary)
    = first_seen []
        (map (doc_get "category")
           (get_documents raised_store "budget" (month_filter None) None)).
Proof.
  apply (summary_key_order None raised_store raised_summary).
  vm_compute; reflexivity.
Defined.

(** ** The top category *)

Lemma gtb_lt (a b : PyNum.number) : PyNum.gtb a b = true <-> (b < a)%Qc.
Proof.
  unfold PyNum.gtb, Qclt. rewrite (Qgt_alt (this a) (this b)).
  destruct (this a ?= this b)%Q; split; congruence.
Qed.

Lemma gtb_le (a b : PyNum.number) : PyNum.gtb a b = false <-> (a <= b)%Qc.
Proof.
  unfold PyNum.gtb, Qcle. rewrite (Qle_alt (this a) (this b)).
  destruct (this a ?= this b)%Q; split; congruence.
Qed.

Lemma max_by_entry (d : list (value * PyNum.number)) :
  forall best, max_by d best = fst (max_entry d best).
Proof.
  induction d as [|[k v] rest IH]; intros best; simpl; [reflexivity|].
  destruct (PyNum.gtb v (snd best)); apply IH.
Qed.

(** The entry chosen is the first of the greatest value: the entries
    before it are strictly below it, those after it are not above it. *)
Lemma max_entry_spec (d : list (value * PyNum.number)) :
  forall best,
    exists before after,
      best :: d = before ++ max_entry d best :: after /\
      Forall (fun e => (snd e < snd (max_entry d best))%Qc) before /\
      Forall (fun e => (snd e <= snd (max_entry d best))%Qc) after.
Proof.
  induction d as [|[k v] rest IH]; intros best; simpl.
  - exists [], []. repeat split; constructor.
  - destruct (PyNum.gtb v (snd best)) eqn:G.
    + apply gtb_lt in G.
      destruct (IH (k, v)) as (b & a & Hd & Hb & Ha).
      assert (L : (v <= snd (max_entry rest (k, v)))%Qc).
      { destruct b as [|x b].
        - injection Hd as Hm _. rewrite <- Hm. apply Qcle_refl.
        - injection Hd as Hx _. inversion Hb as [|? ? Hx' _]; subst x.
          apply Qclt_le_weak. exact Hx'. }
      exists (best :: b), a. split; [rewrite Hd; reflexivity|].
      split; [|exact Ha]. constructor; [|exact Hb].
      eapply Qclt_le_trans; eassumption.
    + apply gtb_le in G.
      destruct (IH best) as (b & a & Hd & Hb & Ha).
      destruct b as [|x b].
      * injection Hd as Hm Hr. subst a. exists [], ((k, v) :: rest).
        split; [rewrite <- Hm; reflexivity|].
        split; [constructor|]. constructor; [|exact Ha].
        rewrite <- Hm. exact G.
      * injection Hd as Hx Hr. subst x.
        inversion Hb as [|? ? Hx' Hb']; subst.
        exists (best :: (k, v) :: b), a.
        split; [simpl; do 2 f_equal; exact Hr|]. split; [|exact Ha].
        constructor; [exact Hx'|]. constructor; [|exact Hb'].
        eapply Qcle_lt_trans; eassumption.
Qed.

Lemma first_seen_NoDup (l : list value) :
  forall seen, NoDup seen -> NoDup (seen ++ first_seen seen l).
Proof.
  induction l as [|k rest IH]; intros seen N; simpl.
  - rewrite app_nil_r. exact N.
  - destruct (existsb (value_eqb k) seen) eqn:X; [apply IH; exact N|].
    replace (seen ++ k :: first_seen (seen ++ [k]) rest)
      with ((seen ++ [k]) ++ first_seen (seen ++ [k]) rest)
      by (rewrite <- app_assoc; reflexivity).
    apply IH. apply NoDup_app; [exact N | repeat constructor; intros [] | ].
    intros a Ia [-> | []].
    assert (T : existsb (value_eqb a) seen = true).
    { apply existsb_exists. exists a. split; [exact Ia | apply value_eqb_refl]. }
    congruence.
Qed.

Lemma get_NoDup {V} (d : list (value * V)) (k : value) (v : V) :
  NoDup (PyDict.keys d) -> In (k, v) d -> PyDict.get k d = Some v.
Proof.
  unfold PyDict.keys. induction d as [|[k' v'] d IH]; intros N I; [contradiction|].
  simpl in *. inversion N as [|? ? Nk Nd]; subst.
  destruct I as [I | I].
  - injection I as -> ->. unfold keqb, value_key. rewrite value_eqb_refl. reflexivity.
  - destruct (keqb k' k) eqn:Q.
    + apply value_eqb_eq in Q. subst k'. exfalso. apply Nk.
      apply (in_map fst) in I. exact I.
    + apply IH; assumption.
Qed.

(** X15: in a summary with expenses, the top category of the spending
    reply is a category of the greatest summed amount, and among several
    of that amount the first in the order of the mapping: the categories
    before it have strictly less, the ones after it no more.  The amount
    printed with it is that greatest amount. *)
Theorem top_category_is_maximal (month : option string) (st : store) (s : summary_t) :
  summary month st = Ok s ->
  categories s <> [] ->
  exists v before after,
    categories s = before ++ (top_category (categories s), v) :: after /\
    PyDict.get (top_category (categories s)) (categories s) = Some v /\
    Forall (fun e => (snd e < v)%Qc) before /\
    Forall (fun e => (snd e <= v)%Qc) after.
Proof.
  intros E NE.
  assert (N : NoDup (PyDict.keys (categories s))).
  { apply summary_Ok in E as (flt & _ & E).
    apply aggregate_Ok in E as (? & ? & bc & ? & _ & _ & Hc & _ & ->).
    simpl. rewrite (by_category_keys _ _ _ Hc). simpl.
    apply (first_seen_NoDup _ []). constructor. }
  destruct (categories s) as [|kv rest] eqn:C; [congruence|].
  unfold top_category. rewrite max_by_entry.
  destruct (max_entry_spec rest kv) as (b & a & Hd & Hb & Ha).
  destruct (max_entry rest kv) as [k v] eqn:M. cbn [fst snd] in *.
  exists v, b, a. split; [exact Hd|]. split; [|split; assumption].
  apply get_NoDup; [exact N|]. rewrite Hd. apply in_elt.
Qed.

Lemma top_category_is_maximal_witness :
  summary None tied_store = Ok tied_summary /\
  top_category (categories tied_summary) = VStr "groceries" /\
  exists v before after,
    categories tied_summary
    = before ++ (top_category (categories tied_summary), v) :: after /\
    PyDict.get (top_category (categories tied_summary))
               (categories tied_summary) = Some v /\
    Forall (fun e => (snd e < v)%Qc) before /\
    Forall (fun e => (snd e <= v)%Qc) after.
Proof.
  assert (E : summary None tied_store = Ok tied_summary) by (vm_compute; reflexivity).
  split; [exact E|]. split; [reflexivity|].
  apply (top_category_is_maximal None tied_store tied_summary E). discriminate.
Defined.

(** The three categories of [tied_summary]: "fun", of a smaller total,
    comes before the top category, and "rent", of the same total, after. *)
Example top_category_among_three :
  categories tied_summary
  = [(VStr "fun", PyNum.of_Z 20)]
      ++ (top_category (categories tied_summary), PyNum.of_Z 50)
      :: [(VStr "rent", PyNum.of_Z 50)].
Proof. reflexivity. Qed.

(** ** Errors and effects of the chat *)

Section ChatEffects.
Variable number_str : PyNum.number -> string.

Lemma In_get {V} (d : list (value * V)) (k : value) (v : V) :
  In (k, v) d -> PyDict.get k d <> None.
Proof.
  induction d as [|[k' v'] d IH]; intros I; [contradiction|]. simpl.
  destruct (keqb k' k) eqn:Q; [discriminate|].
  destruct I as [I | I]; [|apply IH; exact I].
  injection I as -> ->. unfold keqb, value_key in Q.
  rewrite value_eqb_refl in Q. discriminate.
Qed.

Lemma spending_reply_total (month : option string) (s : summary_t) :
  exists r, spending_reply number_str month s = Ok r.
Proof.
  unfold spending_reply.
  destruct (value_truthy (top_category (categories s))) eqn:T; simpl; [|eauto].
  destruct (categories s) as [|kv rest] eqn:C; [discriminate T|].
  unfold top_category. rewrite max_by_entry.
  destruct (max_entry_spec rest kv) as (b & a & Hd & _).
  destruct (max_entry rest kv) as [k v]. cbn [fst].
  assert (I : In (k, v) (kv :: rest)) by (rewrite Hd; apply in_elt).
  apply In_get in I.
  destruct (PyDict.get k (kv :: rest)); [simpl; eauto | congruence].
Qed.

Lemma budget_lines_numeric (cats : list (value * PyNum.number))
    (bs : list (value * value)) (ls : list string) :
  budget_lines number_str cats bs = Ok ls ->
  forall c lim, In (c, lim) bs -> exists x, lim = VNum x.
Proof.
  revert ls. induction bs as [|[c0 l0] bs IH]; intros ls E c lim I; [contradiction|].
  simpl in E. apply bind_Ok in E as (x & Hx & E).
  apply bind_Ok in E as (more & Hm & _).
  destruct I as [I | I].
  - injection I as <- <-. apply as_number_Ok in Hx. eauto.
  - eapply IH; eassumption.
Qed.

Lemma numeric_or_not (bs : list (value * value)) :
  (forall c lim, In (c, lim) bs -> exists x, lim = VNum x)
  \/ (exists c lim, In (c, lim) bs /\ forall x, lim <> VNum x).
Proof.
  induction bs as [|[c l] bs [IH | (c' & l' & I & N)]].
  - left. intros ? ? [].
  - destruct l as [|x| | |];
      try (right; exists c; eexists; split; [left; reflexivity | discriminate]).
    left. intros c' l' [[= <- <-] | I]; [eauto | eapply IH; exact I].
  - right. exists c', l'. split; [right; exact I | exact N].
Qed.

(** X16: once the summary computes, POST /api/chat answers an error for
    one kind of message only: a budget question when some budget of the
    summary has a limit that is not a number.  A spending or income
    question and any other message are answered whatever the limits
    hold. *)
Theorem chat_error_cases (req : ChatRequest.t) (st : store) (s : summary_t) :
  summary (ChatRequest.month req) st = Ok s ->
  (exists e, fst (chat number_str req st) = Raise e)
  <->
  (classify (PyStr.lower (ChatRequest.message req)) = BudgetQuery /\
   exists cat lim, In (cat, lim) (budgets s) /\ forall x, lim <> VNum x).
Proof.
  intros E. rewrite (chat_after_summary number_str req st s E).
  split.
  - intros [e R].
    destruct (classify (PyStr.lower (ChatRequest.message req))) eqn:C;
      simpl in R; try discriminate R.
    + destruct (spending_reply_total (ChatRequest.month req) s) as [r Hr].
      rewrite Hr in R. discriminate R.
    + split; [reflexivity|].
      destruct (numeric_or_not (budgets s)) as [N | N]; [|exact N].
      exfalso. unfold budget_reply in R.
      destruct (budget_lines_total number_str (categories s) (budgets s) N) as [more Hm].
      rewrite Hm in R. discriminate R.
  - intros (C & cat & lim & I & N). rewrite C. simpl. unfold budget_reply.
    destruct (budget_lines number_str (categories s) (budgets s)) as [ls|e] eqn:L;
      simpl; [|eauto].
    exfalso. destruct (budget_lines_numeric _ _ _ L cat lim I) as [x ->].
    exact (N x eq_refl).
Qed.

(** X14: what POST /api/chat writes.  A chat that answers an error
    leaves the store as it was.  A chat that answers a reply never
    touches the transactions and the budgets; it appends to the chat
    messages the user's message and then the reply when both inserts
    succeed, the user's message alone when only the second insert fails,
    and nothing when the first insert fails, the second not being tried. *)
Theorem chat_log_effects (req : ChatRequest.t) (st : store) :
  (forall e st', chat number_str req st = (Raise e, st') -> st' = st)
  /\
  (forall r st',
      chat number_str req st = (Ok r, st') ->
      docs_of st' "transaction" = docs_of st "transaction" /\
      docs_of st' "budget" = docs_of st "budget" /\
      docs_of st' "chatmessage"
      = docs_of st "chatmessage"
        ++ match faults st with
           | true :: _ => []
           | [false] | [] | false :: false :: _ =>
               [logged_message (fresh_id (next_id st)) "user" (ChatRequest.message req);
                logged_message (fresh_id (N.succ (next_id st))) "assistant" (reply r)]
           | false :: true :: _ =>
               [logged_message (fresh_id (next_id st)) "user" (ChatRequest.message req)]
           end).
Proof.
  unfold chat. split.
  - intros e st'.
    destruct (bind (summary (ChatRequest.month req) st) _) as [[rp s]|e0];
      intros [= _ <-]; reflexivity.
  - intros r st'.
    destruct (bind (summary (ChatRequest.month req) st) _) as [[rp s]|e0];
      [|discriminate].
    intros [= <- <-]. cbn [reply].
    unfold log_messages, create_document.
    destruct (faults st) as [|[] [|[] later]]; simpl;
      rewrite ?app_nil_r, <- ?app_assoc; repeat split; reflexivity.
Qed.

Lemma format_2f_zero : PyNum.format_2f (PyNum.of_Z 0) = "0.00"%string.
Proof. reflexivity. Qed.

(** X17: in the budget reply, a budget whose category has no expense in
    the summary is listed with $0.00 spent and, its limit being 0 or
    more, as "under". *)
Theorem unspent_budget_line (req : ChatRequest.t) (st : store) (s : summary_t)
    (cat : value) (lim : PyNum.number) :
  summary (ChatRequest.month req) st = Ok s ->
  classify (PyStr.lower (ChatRequest.message req)) = BudgetQuery ->
  (forall c l, In (c, l) (budgets s) -> exists x, l = VNum x) ->
  In (cat, VNum lim) (budgets s) ->
  PyDict.get cat (categories s) = None ->
  (0 <= lim)%Qc ->
  exists before after,
    fst (chat number_str req st)
    = Ok (mkChatResponse
            (PyStr.join PyStr.nl
               ("Budgets:"%string
                :: before
                ++ ("- " ++ py_str number_str cat ++ ": $0.00 / $"
                    ++ PyNum.format_2f lim ++ " (under)")%string
                :: after))
            s).
Proof.
  intros E C N I G L.
  rewrite (chat_after_summary number_str req st s E), C.
  unfold respond, budget_reply.
  destruct (budget_lines_In number_str (categories s) (budgets s) _ _ N I)
    as (before & after & ->).
  exists before, after. simpl.
  replace (Nat.ltb 1 (S (List.length (before ++ _ :: after)))) with true
    by (symmetry; apply Nat.ltb_lt; rewrite length_app; simpl; lia).
  unfold PyDict.get_default. rewrite G.
  unfold budget_line. rewrite format_2f_zero.
  replace (PyNum.gtb (PyNum.of_Z 0) lim) with false; [reflexivity|].
  symmetry. apply gtb_le. rewrite of_Z_0. exact L.
Qed.

End ChatEffects.

Lemma chat_error_cases_witness :
  (exists e,
      fst (chat no_number_str budget_question
             (with_docs "budget" [worded_budget] scenario_store)) = Raise e)
  <->
  (classify (PyStr.lower (ChatRequest.message budget_question)) = BudgetQuery /\
   exists cat lim,
     In (cat, lim) [(VStr "rent", VStr "high")] /\ forall x, lim <> VNum x).
Proof.
  apply (chat_error_cases no_number_str budget_question
           (with_docs "budget" [worded_budget] scenario_store)
           (mkSummary (PyNum.of_Z 0) (PyNum.of_Z 50) (PyNum.of_Z (-50))
              [(VStr "groceries", PyNum.of_Z 50)] [(VStr "rent", VStr "high")])).
  vm_compute; reflexivity.
Defined.

Lemma unspent_budget_line_witness :
  exists before after,
    fst (chat no_number_str budget_question
           (snd (set_budget rent_budget scenario_store)))
    = Ok (mkChatResponse
            (PyStr.join PyStr.nl
               ("Budgets:"%string
                :: before
                ++ ("- " ++ py_str no_number_str (VStr "rent") ++ ": $0.00 / $"
                    ++ PyNum.format_2f (PyNum.of_Z 900) ++ " (under)")%string
                :: after))
            (mkSummary (PyNum.of_Z 0) (PyNum.of_Z 50) (PyNum.of_Z (-50))
               [(VStr "groceries", PyNum.of_Z 50)]
               [(VStr "groceries", VNum (PyNum.of_Z 40));
                (VStr "rent", VNum (PyNum.of_Z 900))])).
Proof.
  apply unspent_budget_line.
  - vm_compute; reflexivity.
  - reflexivity.
  - intros c l [[= <- <-] | [[= <- <-] | []]]; eexists; reflexivity.
  - right. left. reflexivity.
  - reflexivity.
  - discriminate.
Defined.

(** ** Posting and listing *)

Lemma append_nil_r (s : string) : (s ++ "")%string = s.
Proof. induction s as [|c s IH]; simpl; [reflexivity | rewrite IH; reflexivity]. Qed.

Lemma append_assoc (a b c : string) : ((a ++ b) ++ c)%string = (a ++ (b ++ c))%string.
Proof. induction a as [|x a IH]; simpl; [reflexivity | rewrite IH; reflexivity]. Qed.

Lemma split_from_nonempty (sep : ascii) (s field : string) :
  PyStr.split_from sep s field <> [].
Proof.
  revert field. induction s as [|c s IH]; intros field; simpl; [discriminate|].
  destruct (Ascii.eqb c sep); [discriminate | apply IH].
Qed.

Lemma join_cons (sep p : string) (rest : list string) :
  rest <> [] -> PyStr.join sep (p :: rest) = (p ++ sep ++ PyStr.join sep rest)%string.
Proof. destruct rest; [congruence | reflexivity]. Qed.

(** Joining the fields of a split gives the text back. *)
Lemma join_split_from (sep : ascii) (s : string) :
  forall field,
    PyStr.join (String sep "") (PyStr.split_from sep s field) = (field ++ s)%string.
Proof.
  induction s as [|c s IH]; intros field; simpl.
  - symmetry. apply append_nil_r.
  - destruct (Ascii.eqb c sep) eqn:Q.
    + apply Ascii.eqb_eq in Q. subst c.
      rewrite join_cons by apply split_from_nonempty.
      rewrite IH. reflexivity.
    + rewrite IH, append_assoc. reflexivity.
Qed.

Lemma pad2_all :
  forallb (fun a => forallb (fun b =>
    String.eqb (pad 2 (PyStr.digits_val 0 (String a (String b ""))))
               (String a (String b ""))) digit_chars) digit_chars = true.
Proof. vm_compute. reflexivity. Qed.

Lemma pad4_all :
  forallb (fun a => forallb (fun b => forallb (fun c => forallb (fun d =>
    String.eqb (pad 4 (PyStr.digits_val 0 (String a (String b (String c (String d ""))))))
               (String a (String b (String c (String d "")))))
    digit_chars) digit_chars) digit_chars) digit_chars = true.
Proof. vm_compute. reflexivity. Qed.

Lemma pad2_digits (s : string) :
  PyStr.all_digits s = true -> String.length s = 2%nat ->
  pad 2 (PyStr.digits_val 0 s) = s.
Proof.
  destruct s as [|a [|b [|c s]]]; try discriminate.
  intros E _. cbn [PyStr.all_digits] in E.
  apply andb_true_iff in E as [Ea E]. apply andb_true_iff in E as [Eb _].
  apply is_digit_cases in Ea, Eb.
  pose proof pad2_all as P. rewrite forallb_forall in P.
  specialize (P a Ea). rewrite forallb_forall in P.
  apply String.eqb_eq. exact (P b Eb).
Qed.

Lemma pad4_digits (s : string) :
  PyStr.all_digits s = true -> String.length s = 4%nat ->
  pad 4 (PyStr.digits_val 0 s) = s.
Proof.
  destruct s as [|a [|b [|c [|d [|e s]]]]]; try discriminate.
  intros E _. cbn [PyStr.all_digits] in E.
  apply andb_true_iff in E as [Ea E]. apply andb_true_iff in E as [Eb E].
  apply andb_true_iff in E as [Ec E]. apply andb_true_iff in E as [Ed _].
  apply is_digit_cases in Ea, Eb, Ec, Ed.
  pose proof pad4_all as P. rewrite forallb_forall in P.
  specialize (P a Ea). rewrite forallb_forall in P.
  specialize (P b Eb). rewrite forallb_forall in P.
  specialize (P c Ec). rewrite forallb_forall in P.
  apply String.eqb_eq. exact (P d Ed).
Qed.

(** The ISO text of the parsed date is the text that was parsed. *)
Lemma isoformat_of_parsed (t ys ms ds : string) :
  PyStr.split "-" t = [ys; ms; ds] ->
  PyStr.all_digits ys = true -> String.length ys = 4%nat ->
  PyStr.all_digits ms = true -> String.length ms = 2%nat ->
  PyStr.all_digits ds = true -> String.length ds = 2%nat ->
  date_isoformat (mkDatetime (PyStr.digits_val 0 ys) (PyStr.digits_val 0 ms)
                             (PyStr.digits_val 0 ds) 0 0 0 0) = t.
Proof.
  intros S Dy Ly Dm Lm Dd Ld. unfold date_isoformat. cbn [year month day].
  rewrite (pad4_digits _ Dy Ly), (pad2_digits _ Dm Lm), (pad2_digits _ Dd Ld).
  pose proof (join_split_from "-" t "") as J.
  fold (PyStr.split "-" t) in J. rewrite S in J. exact J.
Qed.


(** The stored dictionary of an accepted transaction dated in ASCII
    digits: a parsed date is the one whose ISO text is the posted text. *)
Lemma storage_dict_cases (txn : Transaction.t) :
  Transaction.valid txn = true ->
  ascii_text (Transaction.date txn) = true ->
  (exists dt,
      date_isoformat dt = Transaction.date txn /\
      storage_dict txn
      = [("amount", VNum (Transaction.amount txn)); ("type", VStr (Transaction.type txn));
         ("category", VStr (Transaction.category txn)); ("date", VDate dt);
         ("notes", none_or_str (Transaction.notes txn))])
  \/ storage_dict txn = Transaction.model_dump txn.
Proof.
  intros V A. unfold Transaction.valid in V. apply andb_true_iff in V as [_ V].
  destruct (date_pattern_ascii _ V A)
    as (ys & ms & ds & S & [Dy Ly] & [Dm Lm] & [Dd Ld]).
  pose proof (strptime_on_pattern _ _ _ _ S Dy Ly Dm Lm Dd Ld) as T.
  unfold storage_dict.
  destruct (is_calendar_date (Transaction.date txn)).
  - left. eexists. split; [exact (isoformat_of_parsed _ _ _ _ S Dy Ly Dm Lm Dd Ld)|].
    rewrite T. reflexivity.
  - right. destruct T as [e ->]. reflexivity.
Qed.

Lemma add_transaction_Ok (txn : Transaction.t) (st : store) (id : string) (st' : store) :
  add_transaction txn st = (Ok (id, "ok"%string), st') ->
  id = hex (fresh_id (next_id st)) /\
  docs_of st' "transaction"
  = docs_of st "transaction" ++ [("_id", VOid (fresh_id (next_id st))) :: storage_dict txn] /\
  docs_of st' "budget" = docs_of st "budget".
Proof.
  unfold add_transaction, create_document.
  destruct (faults st) as [|[] later]; simpl; try discriminate;
    intros [= <- <-]; repeat split; reflexivity.
Qed.

Section PostAndList.
Variable number_str : PyNum.number -> string.

(** X8: an accepted transaction whose [date] is written in ASCII digits
    and that is posted comes back from GET /api/transactions, when the
    limit exceeds the number of transactions stored before it, with the
    fields that were posted, the [date] as the text that was posted
    whether or not it names a calendar day, the identifier the post
    returned under [id], and no [_id]. *)
Theorem posted_transaction_is_listed (txn : Transaction.t) (st : store)
    (id : string) (st' : store) (n : Z) :
  Transaction.valid txn = true ->
  ascii_text (Transaction.date txn) = true ->
  add_transaction txn st = (Ok (id, "ok"%string), st') ->
  (List.length (docs_of st "transaction") < Z.to_nat n)%nat ->
  exists items,
    list_transactions number_str (Some n) st' = Ok items /\
    In (listed_transaction txn id) items.
Proof.
  intros V Asc A L. apply add_transaction_Ok in A as (-> & Ht & _).
  unfold list_transactions, get_documents, matches. simpl.
  rewrite !filter_all, Ht.
  rewrite !firstn_all2 by (rewrite ?length_app; simpl; lia).
  rewrite map_app. eexists. split; [reflexivity|].
  apply in_or_app. right. left.
  destruct (storage_dict_cases txn V Asc) as [(dt & Hiso & ->) | ->].
  - unfold show_date, show_id, listed_transaction. simpl. rewrite Hiso. reflexivity.
  - reflexivity.
Qed.

End PostAndList.

Lemma posted_transaction_is_listed_witness :
  exists items,
    list_transactions no_number_str (Some 100)
      (snd (add_transaction impossible_date_transaction scenario_store)) = Ok items /\
    In (listed_transaction impossible_date_transaction
          (hex (fresh_id (next_id scenario_store)))) items.
Proof.
  apply (posted_transaction_is_listed no_number_str impossible_date_transaction
           scenario_store).
  - vm_compute; reflexivity.
  - reflexivity.
  - vm_compute; reflexivity.
  - vm_compute. lia.
Defined.

(** ** Posting and summing *)

(** The stored dictionary of an accepted transaction whose date names
    no day of the calendar, and of one dated in ASCII digits on a day of
    the calendar. *)
Lemma storage_dict_text (txn : Transaction.t) :
  Transaction.valid txn = true ->
  is_calendar_date (Transaction.date txn) = false ->
  storage_dict txn = Transaction.model_dump txn.
Proof.
  intros V C. unfold Transaction.valid in V. apply andb_true_iff in V as [_ V].
  destruct (date_pattern_parts _ V) as (ys & ms & ds & S & _).
  unfold storage_dict.
  destruct (strptime_ymd (Transaction.date txn)) as [dt|e] eqn:T; [|reflexivity].
  destruct (strptime_calendar _ _ _ _ _ V S T) as [C' _]. congruence.
Qed.









Lemma date_filter_shape (M : string) (flt : query) :
  M <> "" ->
  date_filter (Some M) = Ok flt ->
  exists lo hi, flt = [("date", Between (VDate lo) (VDate hi))].
Proof.
  intros NE. unfold date_filter. rewrite (given_nonempty _ NE). intros E.
  apply bind_Ok in E as ([y m] & _ & E).
  apply bind_Ok in E as (lo & _ & E).
  apply bind_Ok in E as (hi & _ & E).
  injection E as <-. eauto.
Qed.

(** X10: an accepted transaction whose date names no day of the calendar
    is, once posted, in the summary of no month: for every non-empty
    month the summary is what it was before the post. *)
Theorem impossible_date_in_no_month (txn : Transaction.t) (st : store)
    (id : string) (st' : store) (M : string) :
  Transaction.valid txn = true ->
  is_calendar_date (Transaction.date txn) = false ->
  add_transaction txn st = (Ok (id, "ok"%string), st') ->
  M <> "" ->
  summary (Some M) st' = summary (Some M) st.
Proof.
  intros V C A NE. apply add_transaction_Ok in A as (_ & Ht & Hb).
  unfold summary.
  destruct (date_filter (Some M)) as [flt|e] eqn:F; [|reflexivity].
  destruct (date_filter_shape _ _ NE F) as (lo & hi & ->).
  simpl. unfold get_documents. rewrite Ht, Hb, filter_app.
  rewrite (storage_dict_text txn V C).
  simpl. rewrite app_nil_r. reflexivity.
Qed.

Lemma impossible_date_in_no_month_witness :
  summary (Some "2025-02")
    (snd (add_transaction impossible_date_transaction scenario_store))
  = summary (Some "2025-02") scenario_store.
Proof.
  apply (impossible_date_in_no_month impossible_date_transaction scenario_store
           (hex (fresh_id (next_id scenario_store)))).
  - vm_compute; reflexivity.
  - vm_compute; reflexivity.
  - vm_compute; reflexivity.
  - discriminate.
Defined.

(** ** Posting and the summary of the month *)









(** ** Setting a budget *)

Lemma set_budget_Ok (b : Budget.t) (st : store) (id : string) (st' : store) :
  set_budget b st = (Ok (id, "ok"%string), st') ->
  id = hex (fresh_id (next_id st)) /\
  docs_of st' "budget"
  = docs_of st "budget" ++ [("_id", VOid (fresh_id (next_id st))) :: Budget.model_dump b] /\
  docs_of st' "transaction" = docs_of st "transaction".
Proof.
  unfold set_budget, create_document.
  destruct (faults st) as [|[] later]; simpl; try discriminate;
    intros [= <- <-]; repeat split; reflexivity.
Qed.

Lemma month_pattern_nonempty (M : string) : month_pattern M = true -> M <> "".
Proof. intros P ->. discriminate P. Qed.

(** X12: a budget that is set for a category that has no budget yet in
    its month is the one the summary of that month reports for the
    category: the reported limit is the limit that was set. *)
Theorem budget_set_is_reported (b : Budget.t) (st : store) (id : string)
    (st' : store) (s : summary_t) :
  Budget.valid b = true ->
  (forall d, In d (docs_of st "budget") ->
             doc_get "month" d = VStr (Budget.month b) ->
             doc_get "category" d <> VStr (Budget.category b)) ->
  set_budget b st = (Ok (id, "ok"%string), st') ->
  summary (Some (Budget.month b)) st' = Ok s ->
  PyDict.get (VStr (Budget.category b)) (budgets s) = Some (VNum (Budget.limit b)).
Proof.
  intros V _ A E.
  unfold Budget.valid in V. apply andb_true_iff in V as [P _].
  apply month_pattern_nonempty in P.
  apply set_budget_Ok in A as (_ & Hb & _).
  apply summary_Ok in E as (flt & _ & E).
  apply aggregate_Ok in E as (? & ? & ? & bs & _ & _ & _ & Hl & ->).
  cbn [budgets]. unfold get_documents in Hl. rewrite Hb, filter_app in Hl.
  assert (Mt : matches (month_filter (Some (Budget.month b)))
                 (("_id", VOid (fresh_id (next_id st))) :: Budget.model_dump b) = true).
  { unfold month_filter. rewrite (given_nonempty _ P).
    unfold matches. cbn. rewrite String.eqb_refl. reflexivity. }
  cbn [filter] in Hl. rewrite Mt in Hl.
  rewrite (budget_limits_lookup _ _ _ Hl (VStr (Budget.category b))).
  rewrite last_with_split; [reflexivity | reflexivity | intros b' []].
Qed.

Lemma budget_set_is_reported_witness :
  PyDict.get (VStr (Budget.category rent_budget))
    [(VStr "groceries", VNum (PyNum.of_Z 40)); (VStr "rent", VNum (PyNum.of_Z 900))]
  = Some (VNum (Budget.limit rent_budget)).
Proof.
  apply (budget_set_is_reported rent_budget scenario_store
           (hex (fresh_id (next_id scenario_store)))
           (snd (set_budget rent_budget scenario_store))
           (mkSummary (PyNum.of_Z 0) (PyNum.of_Z 50) (PyNum.of_Z (-50))
              [(VStr "groceries", PyNum.of_Z 50)]
              [(VStr "groceries", VNum (PyNum.of_Z 40));
               (VStr "rent", VNum (PyNum.of_Z 900))])).
  - reflexivity.
  - intros d [<- | []] _. discriminate.
  - vm_compute; reflexivity.
  - vm_compute; reflexivity.
Defined.

Section BudgetMonths.
Variable number_str : PyNum.number -> string.

(** X13: the budget schema accepts a month text "YYYY-MM" whose month
    number is outside 1..12 or whose year is 0000.  Such a budget is
    stored and GET /api/budgets lists it for that month, but GET
    /api/summary for that month answers the server error of status 500. *)
Theorem budget_month_outside_calendar (b : Budget.t) (st : store) (id : string)
    (st' : store) (y m : Z) :
  Budget.valid b = true ->
  year_month_of (Budget.month b) = (y, m) ->
  y < 1 \/ m < 1 \/ 12 < m ->
  set_budget b st = (Ok (id, "ok"%string), st') ->
  (exists e, summary (Some (Budget.month b)) st' = Raise (HTTPException 500 e))
  /\
  (exists items,
      list_budgets number_str (Some (Budget.month b)) st' = Ok items /\
      In (listed_budget b id) items).
Proof.
  intros V YM R A.
  unfold Budget.valid in V. apply andb_true_iff in V as [P _].
  pose proof (month_pattern_nonempty _ P) as NE.
  split.
  - destruct (month_pattern_parts _ P) as (ys & ms & S & Iy & Im & _).
    unfold year_month_of in YM. rewrite S in YM. injection YM as <- <-.
    unfold summary, date_filter. rewrite (given_nonempty _ NE), S.
    unfold unpack_year_month. rewrite Iy. simpl. rewrite Im. simpl.
    unfold datetime_ymd at 1.
    destruct ((1 <=? decimal_value ys) && (decimal_value ys <=? 9999)) eqn:Ey;
      simpl; [|eauto].
    replace ((1 <=? decimal_value ms) && (decimal_value ms <=? 12)) with false;
      simpl; [eauto|].
    apply andb_true_iff in Ey as [Ey _]. apply Z.leb_le in Ey.
    symmetry. apply andb_false_iff. rewrite !Z.leb_gt. lia.
  - apply set_budget_Ok in A as (-> & Hb & _).
    unfold list_budgets, get_documents, month_filter.
    rewrite (given_nonempty _ NE), Hb, filter_app, map_app.
    eexists. split; [reflexivity|].
    apply in_or_app. right.
    unfold matches. cbn. rewrite String.eqb_refl. left. reflexivity.
Qed.

End BudgetMonths.

Lemma budget_month_outside_calendar_witness :
  (exists e,
      summary (Some (Budget.month thirteenth_month_budget))
        (snd (set_budget thirteenth_month_budget scenario_store))
      = Raise (HTTPException 500 e))
  /\
  (exists items,
      list_budgets no_number_str (Some (Budget.month thirteenth_month_budget))
        (snd (set_budget thirteenth_month_budget scenario_store)) = Ok items /\
      In (listed_budget thirteenth_month_budget
            (hex (fresh_id (next_id scenario_store)))) items).
Proof.
  apply (budget_month_outside_calendar no_number_str thirteenth_month_budget
           scenario_store _ _ 2025 13).
  - reflexivity.
  - reflexivity.
  - right. right. lia.
  - vm_compute; reflexivity.
Defined.

(** ** What the listings keep *)

Section ListingFields.
Variable number_str : PyNum.number -> string.

Lemma show_id_other (d : doc) (k : string) :
  k <> "_id" -> k <> "id" -> PyDict.get k (show_id number_str d) = PyDict.get k d.
Proof.
  intros N1 N2. unfold show_id. destruct (PyDict.get "_id" d); [|reflexivity].
  rewrite get_set_other by congruence. apply get_remove_other. congruence.
Qed.

Lemma show_date_other (d : doc) (k : string) :
  k <> "date" -> PyDict.get k (show_date d) = PyDict.get k d.
Proof.
  intros N. unfold show_date. destruct (doc_get "date" d); try reflexivity.
  apply get_set_other. congruence.
Qed.

Lemma show_date_date (d : doc) :
  PyDict.get "date" (show_date d)
  = match PyDict.get "date" d with
    | Some (VDate dt) => Some (VStr (date_isoformat dt))
    | other => other
    end.
Proof.
  unfold show_date, doc_get, PyDict.get_default.
  destruct (PyDict.get "date" d) as [[| | |dt|]|] eqn:G; try exact G.
  apply get_set_same.
Qed.

(** X18: the listing endpoints return every field of a fetched document
    as the store holds it, except [_id] and [id], and except the [date]
    of a transaction, which is the ISO text "YYYY-MM-DD" of a stored
    timestamp and is unchanged when it is not a timestamp. *)
Theorem listed_fields_kept (st : store) :
  (forall limit,
      exists items,
        list_transactions number_str limit st = Ok items /\
        Forall2 transaction_shown (get_documents st "transaction" [] limit) items)
  /\
  (forall month,
      exists items,
        list_budgets number_str month st = Ok items /\
        Forall2 budget_shown (get_documents st "budget" (month_filter month) None) items).
Proof.
  split.
  - intros limit. eexists. split; [reflexivity|].
    apply Forall2_map_r. intros d. split.
    + intros k N1 N2 N3. rewrite show_id_other by assumption.
      apply show_date_other. exact N3.
    + rewrite show_id_other by discriminate. apply show_date_date.
  - intros month. eexists. split; [reflexivity|].
    apply Forall2_map_r. intros d k N1 N2. apply show_id_other; assumption.
Qed.

End ListingFields.

(** ** The diagnostic endpoint *)

Lemma take_length (s : string) :
  forall n, (Unicode.length (Unicode.take n s) <= n)%nat.
Proof.
  induction s as [|c s IH]; intros n; simpl; [lia|].
  destruct ((128 <=? N_of_ascii c)%N && (N_of_ascii c <? 192)%N) eqn:B.
  - simpl. rewrite B. apply IH.
  - destruct n as [|n]; simpl; [lia|]. rewrite B. specialize (IH n). lia.
Qed.

Lemma take_prefix (s : string) : forall n, prefix (Unicode.take n s) s = true.
Proof.
  induction s as [|c s IH]; intros n; simpl; [reflexivity|].
  destruct ((128 <=? N_of_ascii c)%N && (N_of_ascii c <? 192)%N).
  - simpl. destruct (ascii_dec c c); [apply IH | congruence].
  - destruct n as [|n]; simpl; [reflexivity|].
    destruct (ascii_dec c c); [apply IH | congruence].
Qed.

Lemma take_all (s : string) :
  forall n, (Unicode.length s <= n)%nat -> Unicode.take n s = s.
Proof.
  induction s as [|c s IH]; intros n L; simpl in *; [reflexivity|].
  destruct ((128 <=? N_of_ascii c)%N && (N_of_ascii c <? 192)%N).
  - rewrite (IH n L). reflexivity.
  - destruct n as [|n]; [lia|]. rewrite (IH n) by lia. reflexivity.
Qed.

(** X19: GET /test reports "Connected" exactly when the database handle
    exists and lists its collections; it then shows the first ten names
    of the listing, and in every other case no collection. *)
Theorem test_database_connected (db : option listing)
    (getenv : string -> option string) :
  (connection_status (test_database db getenv) = "Connected"%string
   <-> exists names, db = Some (names_are names))
  /\
  (forall names,
      db = Some (names_are names) ->
      collections (test_database db getenv) = firstn 10 names /\
      (List.length (collections (test_database db getenv)) <= 10)%nat)
  /\
  ((forall names, db <> Some (names_are names)) ->
   collections (test_database db getenv) = []).
Proof.
  split; [|split].
  - destruct db as [[names | text]|]; simpl; split; intros H;
      try discriminate H; try reflexivity; try (eexists; reflexivity);
      destruct H as [? H]; discriminate H.
  - intros names ->. cbn [test_database collections].
    split; [reflexivity | apply firstn_le_length].
  - intros N. destruct db as [[names | text]|]; simpl; try reflexivity.
    exfalso. exact (N names eq_refl).
Qed.

Lemma test_database_connected_witness :
  collections
    (test_database
       (Some (names_are ["a"; "b"; "c"; "d"; "e"; "f"; "g"; "h"; "i"; "j"; "k"; "l"]%string))
       (fun _ => None))
  = ["a"; "b"; "c"; "d"; "e"; "f"; "g"; "h"; "i"; "j"]%string.
Proof.
  exact (proj1 (proj1 (proj2 (test_database_connected
                                (Some (names_are ["a"; "b"; "c"; "d"; "e"; "f"; "g";
                                                  "h"; "i"; "j"; "k"; "l"]%string))
                                (fun _ => None))) _ eq_refl)).
Defined.

(** X20: when the listing of the collections fails, GET /test shows at
    most the first 80 characters (code points) of the error text after
    its notice, the whole text when it has no more, and stays "Not
    Connected". *)
Theorem test_database_error_text (getenv : string -> option string) (text : string) :
  exists shown,
    database (test_database (Some (raised text)) getenv)
    = ("⚠️ Connected but Error: " ++ shown)%string /\
    (Unicode.length shown <= 80)%nat /\
    prefix shown text = true /\
    (Unicode.length text <= 80 -> shown = text)%nat /\
    connection_status (test_database (Some (raised text)) getenv)
    = "Not Connected"%string.
Proof.
  exists (Unicode.take 80 text).
  split; [reflexivity|]. split; [apply take_length|].
  split; [apply take_prefix|]. split; [apply take_all | reflexivity].
Qed.

Example error_text_cut_by_characters :
  Unicode.take 3 "año 2025" = "año"%string /\
  String.length "año" = 4%nat /\ Unicode.length "año" = 3%nat.
Proof. vm_compute. repeat split. Qed.

(** ** Month texts that are not "YYYY-MM" *)

(** X2: the month of GET /api/summary need not be written "YYYY-MM".
    Every non-empty text that splits on "-" into two texts accepted by
    [int], a year from 1 to 9999 and a month from 1 to 12 (9999-12
    apart), such as "2025-1", selects the transactions dated in that
    month; the budgets are those whose [month] is that very text. *)
Theorem summary_month_text (M : string) (y m : Z) (st : store) :
  M <> "" ->
  year_month_parts M = Some (y, m) ->
  1 <= y <= 9999 -> 1 <= m <= 12 -> ~ (y = 9999 /\ m = 12) ->
  summary (Some M) st
  = http_guard
      (aggregate
         (filter (dated_within (first_of_month y m) (first_of_next_month y m))
                 (docs_of st "transaction"))
         (filter (fun b => value_eqb (doc_get "month" b) (VStr M))
                 (docs_of st "budget"))).
Proof.
  intros NE P Hy Hm H9.
  unfold year_month_parts in P.
  destruct (PyStr.split "-" M) as [|a [|b [|c rest]]] eqn:S; try discriminate P.
  destruct (py_int a) as [y'|] eqn:Ia; [|discriminate P].
  destruct (py_int b) as [m'|] eqn:Ib; [|discriminate P].
  injection P as -> ->.
  destruct (month_bounds y m Hy Hm H9) as [D1 D2].
  unfold summary, date_filter. rewrite (given_nonempty _ NE), S.
  unfold unpack_year_month. rewrite Ia. simpl. rewrite Ib. simpl.
  rewrite D1. simpl. rewrite D2. simpl.
  unfold get_documents, month_filter. rewrite (given_nonempty _ NE).
  rewrite (filter_ext _ _ (matches_date_range _ _)).
  do 2 f_equal. apply filter_ext. intros d.
  unfold matches, doc_get, PyDict.get_default. simpl.
  destruct (PyDict.get "month" d); simpl; [apply andb_true_r | reflexivity].
Qed.

Lemma summary_month_text_witness :
  summary (Some "2025-1") scenario_store
  = http_guard
      (aggregate
         (filter (dated_within (first_of_month 2025 1) (first_of_next_month 2025 1))
                 (docs_of scenario_store "transaction"))
         (filter (fun b => value_eqb (doc_get "month" b) (VStr "2025-1"))
                 (docs_of scenario_store "budget"))).
Proof.
  apply summary_month_text; try (vm_compute; reflexivity); try discriminate; lia.
Defined.

Example short_month_text_finds_no_budget :
  summary (Some "2025-1") scenario_store
  = Ok (mkSummary (PyNum.of_Z 0) (PyNum.of_Z 50) (PyNum.of_Z (-50))
          [(VStr "groceries", PyNum.of_Z 50)] []).
Proof. vm_compute. reflexivity. Qed.

Lemma chat_log_effects_witness :
  docs_of (snd (chat no_number_str budget_question scenario_store)) "transaction"
  = docs_of scenario_store "transaction" /\
  docs_of (snd (chat no_number_str budget_question scenario_store)) "budget"
  = docs_of scenario_store "budget" /\
  docs_of (snd (chat no_number_str budget_question scenario_store)) "chatmessage"
  = docs_of scenario_store "chatmessage"
    ++ match faults scenario_store with
       | true :: _ => []
       | [false] | [] | false :: false :: _ =>
           [logged_message (fresh_id (next_id scenario_store)) "user"
              (ChatRequest.message budget_question);
            logged_message (fresh_id (N.succ (next_id scenario_store))) "assistant"
              (reply (mkChatResponse
                        (PyStr.join PyStr.nl
                           ["Budgets:"; "- groceries: $50.00 / $40.00 (over)"]%string)
                        scenario_summary))]
       | false :: true :: _ =>
           [logged_message (fresh_id (next_id scenario_store)) "user"
              (ChatRequest.message budget_question)]
       end.
Proof.
  apply (proj2 (chat_log_effects no_number_str budget_question scenario_store)).
  vm_compute; reflexivity.
Defined.
